(** * AI provider wrapper ([ai_wrapper.py]): a shallow embedding

    The class [AIProjectAssistant] is embedded as a record for the object's
    attributes and a small state-and-exception monad for its methods.  The
    outside world (process environment, the OpenAI SDK, the [requests]
    library) is a record of oracles; every network request a method issues
    is appended to a trace, so that "no network call" is a statement about
    that trace.

    Python [str] values are [string]s of UTF-8 bytes: the only character
    the code inspects is [":"], which is ASCII and never part of a
    multi-byte sequence.  Python [float] values are IEEE binary64, that is
    Rocq's primitive [float]. *)

From Stdlib Require Import ZArith String Ascii List PrimFloat.
From stdpp Require Import base option list gmap strings pretty.

Local Open Scope string_scope.
Local Open Scope Z_scope.
Local Open Scope list_scope.

#[local] Set Warnings "-register-all".

(** ** Python values and exceptions *)

Module Py.

(** Values that [json.loads] can produce, which are also the values the
    result dictionaries of [send_prompt] hold.  A dictionary is kept as
    an association list read by first match. *)
Inductive val : Type :=
| VNone
| VBool (b : bool)
| VInt (n : Z)
| VFloat (f : float)
| VStr (s : string)
| VList (l : list val)
| VDict (d : list (string * val)).

(** Instances of Python's [Exception]; [except Exception] catches all of
    them.  [Other] stands for what the libraries raise
    ([requests.ConnectionError], [openai.APIError], [JSONDecodeError]...). *)
Inductive exn_class : Type :=
| ValueError | AttributeError | KeyError | TypeError | IndexError
| HTTPError | Other (name : string).

Record exn : Type := Exn { exn_cls : exn_class; exn_msg : string }.

(** [str(e)] *)
Definition str_exn (e : exn) : string := exn_msg e.

Inductive outcome (A : Type) : Type :=
| Ret (a : A)
| Raise (e : exn).
Arguments Ret {A} a.
Arguments Raise {A} e.

(** Truth value of an [Optional[str]]: [None] and the empty string are false. *)
Definition truthy_str (o : option string) : bool :=
  match o with
  | None => false
  | Some s => negb (String.eqb s EmptyString)
  end.

(** Truth value of an [Optional[float]]: [None], [0.0] and [-0.0] are
    false; every other float, NaN included, is true. *)
Definition truthy_float (o : option float) : bool :=
  match o with
  | None => false
  | Some f => negb (PrimFloat.eqb f 0%float)
  end.

(** [a or b] on optional strings and on optional floats. *)
Definition or_str (a b : option string) : option string :=
  if truthy_str a then a else b.

Definition or_float (a : option float) (b : float) : float :=
  match a with
  | Some f => if truthy_float a then f else b
  | None => b
  end.

(** [f"{x}"] for an [Optional[str]]. *)
Definition fmt (o : option string) : string :=
  match o with
  | None => "None"
  | Some s => s
  end.

(** [c in s] for a one-character [c]. *)
Fixpoint char_in (c : ascii) (s : string) : bool :=
  match s with
  | EmptyString => false
  | String a s' => if Ascii.eqb a c then true else char_in c s'
  end.

(** [s.split(c)] for a one-character separator [c]: the list is never
    empty, and [c] occurs in none of its items. *)
Fixpoint split (c : ascii) (s : string) : list string :=
  match s with
  | EmptyString => [EmptyString]
  | String a s' =>
      if Ascii.eqb a c then EmptyString :: split c s'
      else match split c s' with
           | [] => [String a EmptyString]
           | h :: t => String a h :: t
           end
  end.

(** [d.get(k, dflt)] on a dictionary's items. *)
Fixpoint assoc (k : string) (d : list (string * val)) : option val :=
  match d with
  | [] => None
  | (k', v) :: d' => if String.eqb k' k then Some v else assoc k d'
  end.

Definition type_name (v : val) : string :=
  match v with
  | VNone => "NoneType"
  | VBool _ => "bool"
  | VInt _ => "int"
  | VFloat _ => "float"
  | VStr _ => "str"
  | VList _ => "list"
  | VDict _ => "dict"
  end.

Definition no_attribute (v : val) (a : string) : exn :=
  Exn AttributeError
      ("'" +:+ type_name v +:+ "' object has no attribute '" +:+ a +:+ "'").

(** [v.get(k, dflt)]: only dictionaries have the method. *)
Definition get (v : val) (k : string) (dflt : val) : outcome val :=
  match v with
  | VDict d => Ret (default dflt (assoc k d))
  | _ => Raise (no_attribute v "get")
  end.

(** [v[k]] for a string key [k]. *)
Definition getitem (v : val) (k : string) : outcome val :=
  match v with
  | VDict d =>
      match assoc k d with
      | Some x => Ret x
      | None => Raise (Exn KeyError ("'" +:+ k +:+ "'"))
      end
  | VList _ =>
      Raise (Exn TypeError "list indices must be integers or slices, not str")
  | VStr _ =>
      Raise (Exn TypeError "string indices must be integers, not 'str'")
  | _ =>
      Raise (Exn TypeError
               ("'" +:+ type_name v +:+ "' object is not subscriptable"))
  end.

(** The items a [for] loop over [v] visits: the elements of a list, the
    keys of a dictionary, the characters of a string. *)
Fixpoint chars (s : string) : list val :=
  match s with
  | EmptyString => []
  | String a s' => VStr (String a EmptyString) :: chars s'
  end.

Definition iter (v : val) : outcome (list val) :=
  match v with
  | VList l => Ret l
  | VDict d => Ret (map (fun kv => VStr (fst kv)) d)
  | VStr s => Ret (chars s)
  | _ =>
      Raise (Exn TypeError
               ("'" +:+ type_name v +:+ "' object is not iterable"))
  end.

(** [v.split(":")]: only strings have the method. *)
Definition split_colon (v : val) : outcome (list string) :=
  match v with
  | VStr s => Ret (split ":" s)
  | _ => Raise (no_attribute v "split")
  end.

(** [l[0]] *)
Definition item0 (l : list string) : outcome string :=
  match l with
  | x :: _ => Ret x
  | [] => Raise (Exn IndexError "list index out of range")
  end.

End Py.

Import Py.

(** ** The outside world *)

(** An [openai.OpenAI] client object. *)
Record client : Type := Client { api_key : string }.

(** A chat completion as the code reads it: [choices[i].message.content]
    and [usage.total_tokens]. *)
Record completion : Type :=
  Completion { choices : list (option string); usage : option Z }.

(** A [requests.Response]: the status line, the URL it came from and what
    [response.json()] does. *)
Record response : Type :=
  Response { status_code : Z; reason : string; url : string;
             json : outcome val }.

Record world : Type :=
  World {
    (** [os.getenv] *)
    getenv : string -> option string;
    (** the constructor [OpenAI(api_key=...)] *)
    OpenAI : string -> outcome client;
    (** [client.chat.completions.create(model, messages, temperature)],
        with [messages] a list of (role, content) *)
    chat_completions_create :
      client -> string -> list (string * string) -> float -> outcome completion;
    (** [requests.get(url)] and [requests.post(url, json=...)] *)
    requests_get : string -> outcome response;
    requests_post : string -> val -> outcome response
  }.

(** A request that left the process. *)
Inductive call : Type :=
| ChatCreate (model : string) (messages : list (string * string))
             (temperature : float)
| Get (url : string)
| Post (url : string) (body : val).

(** [response.raise_for_status()] of the [requests] library. *)
Definition raise_for_status (r : response) : outcome unit :=
  if (400 <=? status_code r) && (status_code r <? 500) then
    Raise (Exn HTTPError
             (pretty (status_code r) +:+ " Client Error: " +:+ reason r
                +:+ " for url: " +:+ url r))
  else if (500 <=? status_code r) && (status_code r <? 600) then
    Raise (Exn HTTPError
             (pretty (status_code r) +:+ " Server Error: " +:+ reason r
                +:+ " for url: " +:+ url r))
  else Ret tt.

(** ** The object and the monad of its methods *)

(** The attributes of an [AIProjectAssistant].  [default_model] is assigned
    only on two branches of [__init__]: [None] is the attribute missing. *)
Record AIProjectAssistant : Type :=
  Assistant {
    openai_client : option client;
    ollama_endpoint : string;
    current_provider : option string;
    default_temperature : float;
    default_model : option string
  }.

(** What a method runs on: the object and the requests issued so far
    (latest last). *)
Record state : Type := State { self : AIProjectAssistant; trace : list call }.

Definition M (A : Type) : Type := state -> outcome A * state.

Definition ret {A} (a : A) : M A := fun s => (Ret a, s).

Definition raise {A} (e : exn) : M A := fun s => (Raise e, s).

Definition bind {A B} (m : M A) (k : A -> M B) : M B :=
  fun s =>
    match m s with
    | (Ret a, s') => k a s'
    | (Raise e, s') => (Raise e, s')
    end.

(** [try: body except Exception as e: handler]; what [body] did to the
    state before it raised stays done. *)
Definition try_except {A} (body : M A) (handler : exn -> M A) : M A :=
  fun s =>
    match body s with
    | (Ret a, s') => (Ret a, s')
    | (Raise e, s') => handler e s'
    end.

Definition lift {A} (o : outcome A) : M A := fun s => (o, s).

Declare Scope py_scope.
Delimit Scope py_scope with py.
Notation "x <- m ;; k" := (bind m (fun x => k))
  (at level 100, m at next level, k at level 200, right associativity)
  : py_scope.
Notation "m ;; k" := (bind m (fun _ => k))
  (at level 100, k at level 200, right associativity) : py_scope.
Local Open Scope py_scope.

Fixpoint mapM {A B} (f : A -> M B) (l : list A) : M (list B) :=
  match l with
  | [] => ret []
  | x :: l' => y <- f x ;; ys <- mapM f l' ;; ret (y :: ys)
  end.

(** Reading and writing attributes of [self]. *)
Definition attr {A} (f : AIProjectAssistant -> A) : M A :=
  fun s => (Ret (f (self s)), s).

Definition update (f : AIProjectAssistant -> AIProjectAssistant) : M unit :=
  fun s => (Ret tt, State (f (self s)) (trace s)).

Definition set_openai_client (c : option client) : M unit :=
  update (fun a => Assistant c (ollama_endpoint a) (current_provider a)
                             (default_temperature a) (default_model a)).

Definition set_ollama_endpoint (e : string) : M unit :=
  update (fun a => Assistant (openai_client a) e (current_provider a)
                             (default_temperature a) (default_model a)).

Definition set_current_provider (p : option string) : M unit :=
  update (fun a => Assistant (openai_client a) (ollama_endpoint a) p
                             (default_temperature a) (default_model a)).

Definition set_default_temperature (t : float) : M unit :=
  update (fun a => Assistant (openai_client a) (ollama_endpoint a)
                             (current_provider a) t (default_model a)).

Definition set_default_model (m : string) : M unit :=
  update (fun a => Assistant (openai_client a) (ollama_endpoint a)
                             (current_provider a) (default_temperature a)
                             (Some m)).

(** [self.default_model]: an [AttributeError] when it was never assigned. *)
Definition get_default_model : M string :=
  fun s =>
    match default_model (self s) with
    | Some m => (Ret m, s)
    | None =>
        (Raise (Exn AttributeError
           "'AIProjectAssistant' object has no attribute 'default_model'"), s)
    end.

(** Issuing a request: it is recorded, then the world answers. *)
Definition emit (c : call) : M unit :=
  fun s => (Ret tt, State (self s) (trace s ++ [c])).

(** Python's [0.7]: the binary64 value nearest to 7/10. *)
Definition float_0_7 : float := 0x1.6666666666666p-1%float.

(** ** The methods of [AIProjectAssistant]

    Calls to [logger] are left out where they only format values already
    computed; the one that evaluates [response.json()] is kept. *)

Section Methods.

Variable W : world.

Definition get_request (u : string) : M response :=
  emit (Get u) ;; lift (requests_get W u).

Definition post_request (u : string) (body : val) : M response :=
  emit (Post u body) ;; lift (requests_post W u body).

Definition create_request (c : client) (model : string)
    (messages : list (string * string)) (temperature : float) : M completion :=
  emit (ChatCreate model messages temperature) ;;
  lift (chat_completions_create W c model messages temperature).

Definition __init__ : M unit :=
  set_openai_client None ;;
  set_ollama_endpoint "http://localhost:11434" ;;
  set_current_provider None ;;
  set_default_temperature float_0_7 ;;
  (* Try to initialize OpenAI from environment *)
  let api_key := getenv W "OPENAI_API_KEY" in
  (if truthy_str api_key then
     try_except
       (c <- lift (OpenAI W (fmt api_key)) ;;
        set_openai_client (Some c) ;;
        set_current_provider (Some "openai") ;;
        set_default_model "gpt-4")
       (fun _ => ret tt)
   else ret tt) ;;
  (* Check for Ollama availability *)
  try_except
    (endpoint <- attr ollama_endpoint ;;
     response <- get_request (endpoint +:+ "/api/version") ;;
     if status_code response =? 200 then
       current <- attr current_provider ;;
       set_current_provider (or_str current (Some "ollama")) ;;
       set_default_model "llama3.2:latest" ;;
       body <- lift (json response) ;;
       _ <- lift (get body "version" VNone) ;;
       ret tt
     else ret tt)
    (fun _ => ret tt).

Definition get_available_models : M (gmap string (list string)) :=
  let models : gmap string (list string) :=
    {[ "openai" := []; "ollama" := [] ]} in
  (* Get OpenAI models *)
  client <- attr openai_client ;;
  let models :=
    match client with
    | Some _ => <[ "openai" := ["gpt-4"; "gpt-3.5-turbo"; "gpt-4-turbo"] ]> models
    | None => models
    end in
  (* Get Ollama models *)
  models <-
    try_except
      (endpoint <- attr ollama_endpoint ;;
       response <- get_request (endpoint +:+ "/api/tags") ;;
       if status_code response =? 200 then
         body <- lift (json response) ;;
         descriptors <- lift (get body "models" (VList [])) ;;
         items <- lift (iter descriptors) ;;
         names <- mapM (fun model =>
                          name <- lift (getitem model "name") ;;
                          parts <- lift (split_colon name) ;;
                          lift (item0 parts))
                       items ;;
         ret (<[ "ollama" := names ]> models)
       else ret models)
      (fun _ => ret models) ;;
  ret models.

Definition send_prompt (prompt : string) (provider model : option string)
    (temperature : option float) : M (gmap string val) :=
  current <- attr current_provider ;;
  let provider := or_str provider current in
  default <- attr default_temperature ;;
  let temp := or_float temperature default in
  (* Handle model selection based on provider *)
  model <-
    (if decide (provider = Some "openai") then
       ret (fmt (or_str model (Some "gpt-4")))
     else
       if truthy_str model && negb (char_in ":" (fmt model)) then
         ret (fmt model +:+ ":latest")
       else get_default_model) ;;
  try_except
    (client <- attr openai_client ;;
     result <-
       match decide (provider = Some "openai"), client with
       | left _, Some c =>
           response <- create_request c model [("user", prompt)] temp ;;
           choice <- lift (match choices response with
                           | ch :: _ => Ret ch
                           | [] => Raise (Exn IndexError "list index out of range")
                           end) ;;
           tokens <- lift (match usage response with
                           | Some n => Ret n
                           | None =>
                               Raise (Exn AttributeError
                                 "'NoneType' object has no attribute 'total_tokens'")
                           end) ;;
           ret ({[ "success" := VBool true;
                   "content" := from_option VStr VNone choice;
                   "tokens_used" := VInt tokens ]} : gmap string val)
       | _, _ =>
           if decide (provider = Some "ollama") then
             endpoint <- attr ollama_endpoint ;;
             response <-
               post_request (endpoint +:+ "/api/generate")
                 (VDict [("model", VStr model); ("prompt", VStr prompt);
                         ("temperature", VFloat temp)]) ;;
             lift (raise_for_status response) ;;
             body <- lift (json response) ;;
             content <- lift (get body "response" (VStr EmptyString)) ;;
             ret ({[ "success" := VBool true;
                     "content" := content;
                     "tokens_used" := VStr "N/A" ]} : gmap string val)
           else
             raise (Exn ValueError
                      ("Invalid or unavailable provider: " +:+ fmt provider))
       end ;;
     ret result)
    (fun e =>
       ret ({[ "success" := VBool false;
               "error" := VStr (str_exn e) ]} : gmap string val)).

(** [brainstorm_project] and [get_code_suggestion] build a prompt around
    their argument and call [send_prompt] with that prompt only. *)
Definition brainstorm_project (topic : string) : M (gmap string val) :=
  let prompt :=
    "
        Help me brainstorm an AI/Data Science project related to " +:+ topic
    +:+ ". Please provide:
        1. Project title
        2. Problem statement
        3. Suggested approach
        4. Required technologies/libraries
        5. Potential challenges
        6. Expected outcomes
        " in
  send_prompt prompt None None None.

Definition get_code_suggestion (description : string) : M (gmap string val) :=
  let prompt :=
    "
        Please provide Python code suggestions for the following functionality:
        " +:+ description +:+ "
        
        Include:
        1. Code implementation
        2. Required imports
        3. Brief explanation of the approach
        4. Any potential improvements
        " in
  send_prompt prompt None None None.

End Methods.

(** The object before [__init__] has run, and [AIProjectAssistant()]. *)
Definition blank : AIProjectAssistant := Assistant None EmptyString None 0%float None.

Definition new (W : world) : state := snd (__init__ W (State blank [])).

(** ** Sample worlds *)

Module Sample.

Definition refused : exn :=
  Exn (Other "ConnectionError") "Connection refused".

Definition not_json : exn :=
  Exn (Other "JSONDecodeError") "Expecting value: line 1 column 1 (char 0)".

Definition ok (u : string) (body : val) : outcome response :=
  Ret (Response 200 "OK" u (Ret body)).

Definition not_found (u : string) : outcome response :=
  Ret (Response 404 "Not Found" u (Raise not_json)).

(** A running local server with one model. *)
Definition server_get (u : string) : outcome response :=
  if String.eqb u "http://localhost:11434/api/version" then
    ok u (VDict [("version", VStr "0.5.1")])
  else if String.eqb u "http://localhost:11434/api/tags" then
    ok u (VDict [("models", VList [VDict [("name", VStr "llama3.2:latest")]])])
  else not_found u.

Definition server_post (u : string) (body : val) : outcome response :=
  if String.eqb u "http://localhost:11434/api/generate" then
    ok u (VDict [("response", VStr "...text...")])
  else not_found u.

(** A local server whose only model was pulled from a registry that is
    addressed with a port. *)
Definition registry_get (u : string) : outcome response :=
  if String.eqb u "http://localhost:11434/api/tags" then
    ok u (VDict [("models",
                  VList [VDict [("name",
                                 VStr "registry.local:5000/llama3.2:latest")]])])
  else server_get u.

(** A local server that answers every request with status 503. *)
Definition overloaded_get (u : string) : outcome response :=
  Ret (Response 503 "Service Unavailable" u (Raise not_json)).

Definition chat (c : client) (model : string) (messages : list (string * string))
    (temperature : float) : outcome completion :=
  Ret (Completion [Some "an idea"] (Some 42)).

Definition key (k : option string) (name : string) : option string :=
  if String.eqb name "OPENAI_API_KEY" then k else None.

(** No credential, no local server. *)
Definition nothing : world :=
  World (key None) (fun k => Ret (Client k)) chat
        (fun _ => Raise refused) (fun _ _ => Raise refused).

(** No credential, local server running. *)
Definition local_only : world :=
  World (key None) (fun k => Ret (Client k)) chat server_get server_post.

(** Credential present, no local server. *)
Definition cloud_only : world :=
  World (key (Some "sk-test")) (fun k => Ret (Client k)) chat
        (fun _ => Raise refused) (fun _ _ => Raise refused).

(** Credential present and local server running. *)
Definition both : world :=
  World (key (Some "sk-test")) (fun k => Ret (Client k)) chat
        server_get server_post.

(** No credential, local server with the registry model. *)
Definition registry : world :=
  World (key None) (fun k => Ret (Client k)) chat registry_get server_post.

(** No credential, local server overloaded. *)
Definition overloaded : world :=
  World (key None) (fun k => Ret (Client k)) chat overloaded_get
        (fun u _ => overloaded_get u).

End Sample.

(** ** Vocabulary of the statements *)

Definition version_url : string := "http://localhost:11434/api/version".

Definition tags_url (a : AIProjectAssistant) : string :=
  ollama_endpoint a +:+ "/api/tags".

Definition generate_url (a : AIProjectAssistant) : string :=
  ollama_endpoint a +:+ "/api/generate".

(** The cloud provider is detected: the credential is a non-empty string
    and the client is constructed from it. *)
Definition cloud_detected (W : world) : bool :=
  truthy_str (getenv W "OPENAI_API_KEY") &&
  match OpenAI W (fmt (getenv W "OPENAI_API_KEY")) with
  | Ret _ => true
  | Raise _ => false
  end.

(** The local server is detected: the version probe answers 200. *)
Definition local_detected (W : world) : bool :=
  match requests_get W version_url with
  | Ret r => status_code r =? 200
  | Raise _ => false
  end.

(** The dictionary [send_prompt] returns from its [except] clause. *)
Definition failure (msg : string) : gmap string val :=
  {[ "success" := VBool false; "error" := VStr msg ]}.

(** The dictionary it returns for an answer of the local server. *)
Definition ollama_success (content : val) : gmap string val :=
  {[ "success" := VBool true; "content" := content;
     "tokens_used" := VStr "N/A" ]}.

(** The body of the request to [/api/generate]. *)
Definition generate_body (model prompt : string) (temp : float) : val :=
  VDict [("model", VStr model); ("prompt", VStr prompt);
         ("temperature", VFloat temp)].

Definition missing_default_model : exn :=
  Exn AttributeError
      "'AIProjectAssistant' object has no attribute 'default_model'".

(** A model name that [send_prompt] completes with [":latest"]: given,
    not empty, without [":"]. *)
Definition unqualified (model : option string) : bool :=
  truthy_str model && negb (char_in ":" (fmt model)).

(** The model name used outside the cloud branch (lines 107-110);
    [None] when the read of [self.default_model] faults. *)
Definition ollama_model (a : AIProjectAssistant) (model : option string)
  : option string :=
  if unqualified model then Some (fmt model +:+ ":latest")
  else default_model a.

Definition obind {A B} (o : outcome A) (k : A -> outcome B) : outcome B :=
  match o with
  | Ret a => k a
  | Raise e => Raise e
  end.

Fixpoint omapM {A B} (f : A -> outcome B) (l : list A) : outcome (list B) :=
  match l with
  | [] => Ret []
  | x :: l' => obind (f x) (fun y => obind (omapM f l') (fun ys => Ret (y :: ys)))
  end.

(** What the [ollama] branch of [send_prompt] reads from the answer to its
    request (lines 138-141). *)
Definition ollama_content (o : outcome response) : outcome val :=
  obind o (fun r =>
  obind (raise_for_status r) (fun _ =>
  obind (json r) (fun body => get body "response" (VStr EmptyString)))).

Definition openai_models : list string :=
  ["gpt-4"; "gpt-3.5-turbo"; "gpt-4-turbo"].

(** [model["name"].split(":")[0]] (line 76). *)
Definition display_name (model : val) : outcome string :=
  obind (getitem model "name") (fun name =>
  obind (split_colon name) item0).

(** The list comprehension over [response.json().get("models", [])]. *)
Definition ollama_names (r : response) : outcome (list string) :=
  obind (json r) (fun body =>
  obind (get body "models" (VList [])) (fun descriptors =>
  obind (iter descriptors) (omapM display_name))).

(** The two entries of the dictionary [get_available_models] returns. *)
Definition openai_entry (a : AIProjectAssistant) : list string :=
  match openai_client a with
  | Some _ => openai_models
  | None => []
  end.

Definition ollama_entry (W : world) (a : AIProjectAssistant) : list string :=
  match requests_get W (tags_url a) with
  | Ret r =>
      if status_code r =? 200 then
        match ollama_names r with
        | Ret names => names
        | Raise _ => []
        end
      else []
  | Raise _ => []
  end.

(** Following the words of the specification, not the code: a name with
    its trailing [":tag"] qualifier (the text from the last [":"] on)
    removed; a name without [":"] is left as it is. *)
Fixpoint strip_trailing_tag (s : string) : string :=
  match s with
  | EmptyString => EmptyString
  | String a s' =>
      if char_in ":" s' then String a (strip_trailing_tag s')
      else if Ascii.eqb a ":" then EmptyString
      else String a s'
  end.


(** ** Further vocabulary *)

(** The dictionary [send_prompt] returns for an answer of the cloud API
    (lines 122-126); a missing message content is Python's [None]. *)
Definition openai_success (content : option string) (tokens : Z)
  : gmap string val :=
  {[ "success" := VBool true;
     "content" := from_option VStr VNone content;
     "tokens_used" := VInt tokens ]}.

(** A model descriptor of the tags endpoint that carries only a name. *)
Definition name_descriptor (name : string) : val :=
  VDict [("name", VStr name)].


(** A status for which [raise_for_status] raises. *)
Definition error_status (n : Z) : bool := (400 <=? n) && (n <? 600).

(** Worlds with a credential whose cloud API misbehaves; no local server. *)
Module Cloud.

Definition rate_limited : exn :=
  Exn (Other "RateLimitError") "Error code: 429 - rate limit exceeded".

Definition with_chat
    (chat : client -> string -> list (string * string) -> float ->
            outcome completion) : world :=
  World (Sample.key (Some "sk-test")) (fun k => Ret (Client k)) chat
        (fun _ => Raise Sample.refused) (fun _ _ => Raise Sample.refused).

(** The completion call raises. *)
Definition failing : world := with_chat (fun _ _ _ _ => Raise rate_limited).

(** The completion has no choice. *)
Definition no_choices : world :=
  with_chat (fun _ _ _ _ => Ret (Completion [] (Some 7))).

(** The completion has no usage record. *)
Definition no_usage : world :=
  with_chat (fun _ _ _ _ => Ret (Completion [Some "an idea"] None)).

(** The constructor of the client raises. *)
Definition bad_key : world :=
  World (Sample.key (Some "sk-test"))
        (fun _ => Raise (Exn (Other "OpenAIError") "invalid api key"))
        Sample.chat Sample.server_get Sample.server_post.

End Cloud.

(** Local servers whose generate endpoint answers oddly; no credential. *)
Module Local.

Definition with_post (post : string -> val -> outcome response) : world :=
  World (Sample.key None) (fun k => Ret (Client k)) Sample.chat
        Sample.server_get post.

(** Status 201 and an empty JSON object. *)
Definition created : world :=
  with_post (fun u _ => Ret (Response 201 "Created" u (Ret (VDict [])))).

(** Status 200 and a body that is not JSON. *)
Definition html : world :=
  with_post (fun u _ => Ret (Response 200 "OK" u (Raise Sample.not_json))).

(** Status 200 and a JSON array. *)
Definition array : world :=
  with_post (fun u _ => Ret (Response 200 "OK" u (Ret (VList [])))).

(** Status 404. *)
Definition missing : world :=
  with_post (fun u _ => Sample.not_found u).

End Local.

(** Local servers with other model listings; no credential. *)
Module Tags.

Definition with_tags (body : outcome val) : world :=
  World (Sample.key None) (fun k => Ret (Client k)) Sample.chat
        (fun u =>
           if String.eqb u "http://localhost:11434/api/tags" then
             Ret (Response 200 "OK" u body)
           else Sample.server_get u)
        Sample.server_post.



(** The second descriptor has no name. *)
Definition unnamed_items : list val :=
  [name_descriptor "llama3.2:latest"; VDict [("model", VStr "mistral:7b")]].

Definition unnamed : world :=
  with_tags (Ret (VDict [("models", VList unnamed_items)])).

(** An object without model list, and a body that is not JSON. *)
Definition no_list : world :=
  with_tags (Ret (VDict [("error", VStr "busy")])).

Definition html : world := with_tags (Raise Sample.not_json).

End Tags.

(** ** The application ([app.py])

    The functions of [app.py] that call the assistant.  They act on the
    module-level [assistant], which is the object of the state.  A
    [gr.Dropdown] is kept as the two arguments it is built from. *)

Record Dropdown : Type :=
  MkDropdown { dropdown_choices : list string; dropdown_value : string }.

Definition PROJECT_OPTIONS : list (string * string) :=
  [("Text-to-Image Generation",
    "Create an AI system that generates images from text descriptions using models like DALL-E or Stable Diffusion");
   ("GPT Chatbot Assistant",
    "Build a custom GPT-powered chatbot assistant for specific domain expertise");
   ("AI Story Generator",
    "Develop a creative writing AI that generates stories based on prompts");
   ("Voice Cloning AI",
    "Create a system that can clone and synthesize human voices");
   ("AI Music Composer",
    "Build an AI system that composes original music in different styles");
   ("Text-to-Video Generation",
    "Implement a system that creates short videos from text descriptions");
   ("AI Code Generator",
    "Create a coding assistant that generates code from natural language descriptions");
   ("AI Art Style Transfer",
    "Develop a system that applies artistic styles to images using AI");
   ("AI Content Summarizer",
    "Build an AI that creates concise summaries of long-form content");
   ("Virtual Avatar Creator",
    "Create an AI system that generates and animates virtual avatars")].

(** [d[k]] and [d.get(k)] on a dictionary of strings. *)
Fixpoint lookup_option (k : string) (d : list (string * string))
  : option string :=
  match d with
  | [] => None
  | (k', v) :: d' => if String.eqb k' k then Some v else lookup_option k d'
  end.

(** Whitespace for [str.strip()] and [str.isspace()], on UTF-8 bytes: the
    code points 9-13, 28-32, U+0085, U+00A0, U+1680, U+2000-U+200A, U+2028,
    U+2029, U+202F, U+205F and U+3000. *)
Definition space1 (a : N) : bool :=
  ((9 <=? a) && (a <=? 13) || (28 <=? a) && (a <=? 32))%N.

Definition space2 (a b : N) : bool :=
  ((a =? 194) && ((b =? 133) || (b =? 160)))%N.

Definition space3 (a b c : N) : bool :=
  ((a =? 225) && (b =? 154) && (c =? 128)
   || (a =? 226) && (b =? 128)
      && ((128 <=? c) && (c <=? 138) || (c =? 168) || (c =? 169) || (c =? 175))
   || (a =? 226) && (b =? 129) && (c =? 159)
   || (a =? 227) && (b =? 128) && (c =? 128))%N.

(** [not s.strip()]: every character of [s] is whitespace. *)
Fixpoint is_blank (s : string) : bool :=
  match s with
  | EmptyString => true
  | String a s1 =>
      if space1 (N_of_ascii a) then is_blank s1
      else
        match s1 with
        | EmptyString => false
        | String b s2 =>
            if space2 (N_of_ascii a) (N_of_ascii b) then is_blank s2
            else
              match s2 with
              | EmptyString => false
              | String c s3 =>
                  if space3 (N_of_ascii a) (N_of_ascii b) (N_of_ascii c)
                  then is_blank s3
                  else false
              end
        end
  end.

(** The truth value of a Python value. *)
Definition truthy (v : val) : bool :=
  match v with
  | VNone => false
  | VBool b => b
  | VInt n => negb (n =? 0)
  | VFloat f => negb (PrimFloat.eqb f 0%float)
  | VStr s => negb (String.eqb s EmptyString)
  | VList l => match l with [] => false | _ => true end
  | VDict d => match d with [] => false | _ => true end
  end.

(** [response[k]] on a result dictionary. *)
Definition item (response : gmap string val) (k : string) : outcome val :=
  match response !! k with
  | Some v => Ret v
  | None => Raise (Exn KeyError ("'" +:+ k +:+ "'"))
  end.

Section App.

Variable W : world.

(** Python's [repr], used where the code formats a float, a list or a
    dictionary and where a [KeyError] quotes its key. *)
Variable repr : val -> string.

(** [str(v)], as an f-string formats [v]. *)
Definition str_val (v : val) : string :=
  match v with
  | VNone => "None"
  | VBool true => "True"
  | VBool false => "False"
  | VInt n => pretty n
  | VStr s => s
  | _ => repr v
  end.

Definition get_model_choices : M (gmap string (list string)) :=
  get_available_models W.

Definition update_model_choices (provider : string) : M Dropdown :=
  models <- get_model_choices ;;
  (* Set appropriate default model based on provider *)
  let default_model :=
    if String.eqb provider "openai" then "gpt-4" else "llama3.2" in
  ret (MkDropdown (default [] (models !! provider)) default_model).

Definition process_input (input_type query provider model : string)
  : M (val * string) :=
  if is_blank query then
    ret (VStr EmptyString, "Please enter a query")
  else
    response <-
      (if String.eqb input_type "brainstorm" then brainstorm_project W query
       else get_code_suggestion W query) ;;
    success <- lift (item response "success") ;;
    if truthy success then
      let status :=
        "Success! Tokens used: "
        +:+ str_val (default (VStr "N/A") (response !! "tokens_used")) in
      content <- lift (item response "content") ;;
      ret (content, status)
    else
      let error_msg :=
        "Error: "
        +:+ str_val (default (VStr "Unknown error occurred")
                       (response !! "error")) in
      ret (VStr EmptyString, error_msg).

Definition handle_project_click (project_name provider model : string)
  : M (string * string * val) :=
  description <-
    lift (match lookup_option project_name PROJECT_OPTIONS with
          | Some d => Ret d
          | None => Raise (Exn KeyError (repr (VStr project_name)))
          end) ;;
  response <- brainstorm_project W description ;;
  success <- lift (item response "success") ;;
  if truthy success then
    content <- lift (item response "content") ;;
    ret ("brainstorm", description, content)
  else
    let error_msg :=
      "Error: "
      +:+ str_val (default (VStr "Unknown error occurred")
                     (response !! "error")) in
    ret ("brainstorm", description, VStr error_msg).

End App.

(** A [repr] for the witnesses; it is applied to strings only. *)
Definition quote (v : val) : string :=
  match v with
  | VStr s => "'" +:+ s +:+ "'"
  | _ => "?"
  end.

(** The call [process_input] makes on the assistant (lines 122-125). *)
Definition assistant_call (W : world) (input_type query : string)
  : M (gmap string val) :=
  if String.eqb input_type "brainstorm" then brainstorm_project W query
  else get_code_suggestion W query.

(** What [process_input] makes of the assistant's answer (lines 127-134). *)
Definition present (repr : val -> string) (response : gmap string val)
  : M (val * string) :=
  success <- lift (item response "success") ;;
  if truthy success then
    content <- lift (item response "content") ;;
    ret (content,
         "Success! Tokens used: "
         +:+ str_val repr (default (VStr "N/A") (response !! "tokens_used")))
  else
    ret (VStr EmptyString,
         "Error: "
         +:+ str_val repr (default (VStr "Unknown error occurred")
                             (response !! "error"))).

(** What [handle_project_click] makes of the assistant's answer
    (lines 141-148). *)
Definition present_click (repr : val -> string) (description : string)
    (response : gmap string val) : M (string * string * val) :=
  success <- lift (item response "success") ;;
  if truthy success then
    content <- lift (item response "content") ;;
    ret ("brainstorm", description, content)
  else
    ret ("brainstorm", description,
         VStr ("Error: "
               +:+ str_val repr (default (VStr "Unknown error occurred")
                                   (response !! "error")))).

(** The model drop-down the main block builds at start-up (lines 190-194):
    [choices=get_model_choices().get(assistant.current_provider, [])] and
    [value=assistant.default_model.split(":")[0]] for the current provider
    ["ollama"], [assistant.default_model] otherwise. *)
Definition model_dropdown (W : world) : M Dropdown :=
  models <- get_model_choices W ;;
  current <- attr current_provider ;;
  let choices :=
    match current with
    | Some p => default [] (models !! p)
    | None => []
    end in
  value <-
    (if decide (current = Some "ollama") then
       default_model <- get_default_model ;;
       lift (item0 (split ":" default_model))
     else get_default_model) ;;
  ret (MkDropdown choices value).

(** ** Proof steps *)

Ltac run :=
  unfold bind, try_except, lift, attr, update, emit, ret, raise; cbn.

Ltac split_on t := destruct t eqn:?; cbn.

(** One case split on what the goal's head computation waits for. *)
Ltac step :=
  match goal with
  | H : ?t = _ |- context [match ?t with _ => _ end] => rewrite H; cbn
  | |- context [decide ?P] => destruct (decide P); cbn
  | |- context [if (truthy_str ?m && ?b)%bool then _ else _] =>
      split_on (truthy_str m && b)%bool
  | |- context [match default_model ?a with _ => _ end] =>
      split_on (default_model a)
  | |- context [match openai_client ?a with _ => _ end] =>
      split_on (openai_client a)
  | |- context [match chat_completions_create ?w ?c ?m ?l ?t with _ => _ end] =>
      split_on (chat_completions_create w c m l t)
  | |- context [match requests_post ?w ?u ?b with _ => _ end] =>
      split_on (requests_post w u b)
  | |- context [match requests_get ?w ?u with _ => _ end] =>
      split_on (requests_get w u)
  | |- context [match choices ?r with _ => _ end] => split_on (choices r)
  | |- context [match usage ?r with _ => _ end] => split_on (usage r)
  | |- context [match raise_for_status ?r with _ => _ end] =>
      split_on (raise_for_status r)
  | |- context [match json ?r with _ => _ end] => split_on (json r)
  | |- context [match get ?v ?k ?d with _ => _ end] => split_on (get v k d)
  | |- context [match iter ?v with _ => _ end] => split_on (iter v)
  | |- context [if (?x =? ?y)%Z then _ else _] => split_on (x =? y)%Z
  end.

Ltac unfold_send_prompt :=
  unfold send_prompt, get_default_model, create_request, post_request; run.

(** ** Initialisation *)

(** The object [AIProjectAssistant()] builds, and the one request made. *)
Lemma new_eq (W : world) :
  self (new W) =
    Assistant
      (if cloud_detected W then
         match OpenAI W (fmt (getenv W "OPENAI_API_KEY")) with
         | Ret c => Some c
         | Raise _ => None
         end
       else None)
      "http://localhost:11434"
      (if cloud_detected W then Some "openai"
       else if local_detected W then Some "ollama" else None)
      float_0_7
      (if local_detected W then Some "llama3.2:latest"
       else if cloud_detected W then Some "gpt-4" else None)
  /\ trace (new W) = [Get version_url].
Proof.
  unfold new, __init__, cloud_detected, local_detected, get_request,
    set_openai_client, set_ollama_endpoint, set_current_provider,
    set_default_temperature, set_default_model, version_url.
  run.
  destruct (truthy_str (getenv W "OPENAI_API_KEY")); cbn;
    [destruct (OpenAI W _) as [c|e]; cbn|];
    (destruct (requests_get W _) as [r|e']; cbn;
     [destruct (status_code r =? 200); cbn;
      [destruct (json r) as [b|e'']; cbn; [destruct (get b _ _); cbn|]|]|]);
    auto.
Qed.

Lemma init_default_temperature (W : world) :
  default_temperature (self (new W)) = float_0_7.
Proof. destruct (new_eq W) as [H _]. now rewrite H. Qed.

Lemma init_ollama_endpoint (W : world) :
  ollama_endpoint (self (new W)) = "http://localhost:11434".
Proof. destruct (new_eq W) as [H _]. now rewrite H. Qed.

(** After [__init__], a default model is stored exactly when a provider
    is current. *)
Lemma init_default_model_iff (W : world) :
  default_model (self (new W)) = None <->
  current_provider (self (new W)) = None.
Proof.
  destruct (new_eq W) as [H _]. rewrite H. cbn.
  destruct (cloud_detected W), (local_detected W); cbn; split; congruence.
Qed.

(** C5, as amended: after initialisation at most one provider is current:
    ["openai"] when the credential is present and the client is built from
    it; otherwise ["ollama"] when the version probe of the local server
    answers 200; otherwise none. *)
Theorem init_current_provider (W : world) :
  current_provider (self (new W)) =
    if cloud_detected W then Some "openai"
    else if local_detected W then Some "ollama" else None.
Proof. destruct (new_eq W) as [H _]. now rewrite H. Qed.

(** C5, as stated, fails: with no credential and no local server, no
    provider is current. *)
Lemma init_no_current_provider :
  ~ exists p, current_provider (self (new Sample.nothing)) = Some p.
Proof. intros [p H]. vm_compute in H. discriminate. Qed.

(** C9: when the version probe of the local server answers 200, the stored
    default model is ["llama3.2:latest"], also when the cloud provider was
    detected and is the current one. *)
Theorem init_default_model_local (W : world) (r : response) :
  requests_get W version_url = Ret r ->
  status_code r = 200 ->
  default_model (self (new W)) = Some "llama3.2:latest" /\
  (cloud_detected W = true ->
   current_provider (self (new W)) = Some "openai").
Proof.
  intros Hget Hstatus. destruct (new_eq W) as [H _]. rewrite H. cbn.
  unfold local_detected. rewrite Hget, Hstatus. cbn.
  split; [reflexivity|]. intros ->. reflexivity.
Qed.

Lemma init_default_model_local_witness :
  default_model (self (new Sample.both)) = Some "llama3.2:latest" /\
  current_provider (self (new Sample.both)) = Some "openai".
Proof.
  destruct (init_default_model_local Sample.both
              (Response 200 "OK" version_url
                 (Ret (VDict [("version", VStr "0.5.1")])))
              eq_refl eq_refl) as [Hm Hp].
  split; [exact Hm | apply Hp; reflexivity].
Defined.

(** ** [send_prompt] *)


(** Outside the cloud branch, the model is read from [self.default_model]
    unless an unqualified name is given; the read is not inside [try]. *)
Lemma send_prompt_missing_default (W : world) prompt provider model temperature s :
  or_str provider (current_provider (self s)) <> Some "openai" ->
  unqualified model = false ->
  default_model (self s) = None ->
  send_prompt W prompt provider model temperature s =
    (Raise missing_default_model, s).
Proof.
  unfold unqualified. intros Hp Hm Hd. unfold_send_prompt.
  destruct (decide _) as [|_]; [contradiction|]. cbn.
  rewrite Hm, Hd. reflexivity.
Qed.

(** With a stored default model, every call returns a dictionary. *)
Lemma send_prompt_returns (W : world) prompt provider model temperature s d :
  default_model (self s) = Some d ->
  exists r, fst (send_prompt W prompt provider model temperature s) = Ret r.
Proof.
  intros Hd. unfold_send_prompt.
  repeat step; eauto; congruence.
Qed.

(** So does every call that resolves to the cloud provider. *)
Lemma send_prompt_openai_returns (W : world) prompt provider model temperature s :
  or_str provider (current_provider (self s)) = Some "openai" ->
  exists r, fst (send_prompt W prompt provider model temperature s) = Ret r.
Proof.
  intros Hp. unfold_send_prompt.
  destruct (decide _) as [_|]; [|contradiction]. cbn.
  repeat step; eauto.
Qed.

(** An exception raised inside [try] comes back as a failure dictionary
    with the exception's message: here, the request to the local server. *)
Lemma send_prompt_post_exception (W : world) prompt model temperature s d e :
  default_model (self s) = Some d ->
  (forall u b, requests_post W u b = Raise e) ->
  fst (send_prompt W prompt (Some "ollama") model temperature s) =
    Ret (failure (str_exn e)).
Proof.
  intros Hd He. unfold_send_prompt.
  repeat step; try congruence;
    match goal with
    | H : requests_post _ _ _ = _ |- _ =>
        rewrite He in H; inversion H; subst; reflexivity
    end.
Qed.

(** A provider that is neither known nor usable: a failure naming it, and
    the state (so the trace) is as before.  The last premise is what keeps
    the read of [self.default_model] from faulting. *)
Lemma send_prompt_invalid_provider (W : world) prompt provider model temperature s :
  let p := or_str provider (current_provider (self s)) in
  p <> Some "ollama" ->
  (p = Some "openai" -> openai_client (self s) = None) ->
  (p <> Some "openai" ->
   unqualified model = true \/ default_model (self s) <> None) ->
  send_prompt W prompt provider model temperature s =
    (Ret (failure ("Invalid or unavailable provider: " +:+ fmt p)), s).
Proof.
  intros p Hollama Hopenai Hmodel. subst p. unfold unqualified in Hmodel.
  unfold_send_prompt.
  destruct (decide _) as [Hp|Hp]; cbn.
  - rewrite (Hopenai Hp). cbn.
    destruct (decide _) as [|_]; [contradiction|]. reflexivity.
  - destruct (truthy_str model && _)%bool eqn:Hu; cbn.
    + destruct (openai_client _); cbn;
        (destruct (decide _) as [|_]; [contradiction|]); reflexivity.
    + destruct (Hmodel Hp) as [|Hd]; [discriminate|].
      destruct (default_model (self s)); [|contradiction]. cbn.
      destruct (openai_client _); cbn;
        (destruct (decide _) as [|_]; [contradiction|]); reflexivity.
Qed.

(** The cloud provider named without a client: the failure names it and no
    request is made. *)
Lemma send_prompt_openai_without_client (W : world) prompt model temperature s :
  openai_client (self s) = None ->
  send_prompt W prompt (Some "openai") model temperature s =
    (Ret (failure "Invalid or unavailable provider: openai"), s).
Proof.
  intros Hc.
  apply (send_prompt_invalid_provider W prompt (Some "openai")); cbn;
    [discriminate | intros _; exact Hc | congruence].
Qed.

(** C2: the claim fails on the code.  With no provider detected, naming an
    unknown provider and no model makes [send_prompt] raise
    [AttributeError] where the claim has it return a failure naming the
    provider. *)
Theorem send_prompt_unknown_provider_raises :
  send_prompt Sample.nothing "hi" (Some "anthropic") None None
              (new Sample.nothing) =
    (Raise missing_default_model, new Sample.nothing).
Proof. apply send_prompt_missing_default; vm_compute; congruence. Qed.

(** C3: the claim fails on the code.  With no provider detected,
    [send_prompt] called with the prompt alone raises [AttributeError] to
    its caller: [self.default_model] is read before the [try]. *)
Theorem send_prompt_raises_when_nothing_detected :
  send_prompt Sample.nothing "hi" None None None (new Sample.nothing) =
    (Raise missing_default_model, new Sample.nothing).
Proof. apply send_prompt_missing_default; vm_compute; congruence. Qed.

(** *** What is dispatched *)

Lemma send_prompt_ollama_dispatch (W : world) prompt model temperature s m :
  ollama_model (self s) model = Some m ->
  trace (snd (send_prompt W prompt (Some "ollama") model temperature s)) =
    trace s ++
    [Post (generate_url (self s))
          (generate_body m prompt
             (or_float temperature (default_temperature (self s))))].
Proof.
  unfold ollama_model, unqualified, generate_url, generate_body.
  unfold_send_prompt.
  destruct (truthy_str model && _)%bool eqn:Hu; intros Hm;
    [inversion Hm; subst m|];
    repeat step; try congruence; reflexivity.
Qed.

Lemma send_prompt_openai_dispatch (W : world) prompt provider model temperature s c :
  or_str provider (current_provider (self s)) = Some "openai" ->
  openai_client (self s) = Some c ->
  trace (snd (send_prompt W prompt provider model temperature s)) =
    trace s ++
    [ChatCreate (fmt (or_str model (Some "gpt-4"))) [("user", prompt)]
                (or_float temperature (default_temperature (self s)))].
Proof.
  intros Hp Hc. unfold_send_prompt.
  destruct (decide _) as [_|]; [|contradiction]. cbn. rewrite Hc. cbn.
  repeat step; reflexivity.
Qed.

Lemma char_in_app (c : ascii) (s1 s2 : string) :
  char_in c (s1 +:+ s2) = char_in c s1 || char_in c s2.
Proof.
  induction s1 as [|a s1 IH]; [reflexivity|].
  change (String a s1 +:+ s2) with (String a (s1 +:+ s2)). cbn [char_in].
  destruct (Ascii.eqb a c); [reflexivity | exact IH].
Qed.

(** A name without qualifier gets [":latest"]. *)
Lemma ollama_model_unqualified a (name : string) :
  name <> EmptyString ->
  char_in ":" name = false ->
  ollama_model a (Some name) = Some (name +:+ ":latest").
Proof.
  intros Hne Hc. unfold ollama_model, unqualified. cbn. rewrite Hc.
  destruct (String.eqb_spec name EmptyString); [contradiction | reflexivity].
Qed.

(** A name with a qualifier is dropped for the stored default. *)
Lemma ollama_model_qualified a (base tag : string) :
  ollama_model a (Some (base +:+ ":" +:+ tag)) = default_model a.
Proof.
  unfold ollama_model, unqualified. cbn [fmt].
  rewrite char_in_app. cbn. rewrite orb_true_r, andb_false_r. reflexivity.
Qed.

(** No name: the stored default. *)
Lemma ollama_model_none a : ollama_model a None = default_model a.
Proof. reflexivity. Qed.

(** The stored default need not carry a qualifier: with only the cloud
    provider detected it is ["gpt-4"], and a call naming ["ollama"] without
    a model sends that name to the local server. *)
Lemma send_prompt_ollama_cloud_default :
  trace (snd (send_prompt Sample.cloud_only "describe X" (Some "ollama")
                          None None (new Sample.cloud_only))) =
    [Get version_url;
     Post "http://localhost:11434/api/generate"
          (generate_body "gpt-4" "describe X" float_0_7)].
Proof.
  rewrite (send_prompt_ollama_dispatch _ _ _ _ _ "gpt-4"); reflexivity.
Qed.

(** C1: the claim fails on the code.  The explicit, qualified model
    ["llama3.2:7b"] is not passed through: the request to the local server
    carries the stored default ["llama3.2:latest"]. *)
Theorem send_prompt_qualified_model_replaced :
  trace (snd (send_prompt Sample.local_only "describe X" (Some "ollama")
                          (Some "llama3.2:7b") None
                          (new Sample.local_only))) =
    [Get version_url;
     Post "http://localhost:11434/api/generate"
          (generate_body "llama3.2:latest" "describe X" float_0_7)].
Proof.
  rewrite (send_prompt_ollama_dispatch _ _ _ _ _ "llama3.2:latest").
  - reflexivity.
  - change (Some "llama3.2:7b") with (Some ("llama3.2" +:+ ":" +:+ "7b")).
    rewrite ollama_model_qualified. reflexivity.
Qed.

(** *** Temperature *)

Lemma or_float_none (d : float) : or_float None d = d.
Proof. reflexivity. Qed.

Lemma or_float_nonzero (t d : float) :
  PrimFloat.eqb t 0 = false -> or_float (Some t) d = t.
Proof. intros H. unfold or_float, truthy_float. now rewrite H. Qed.

Lemma or_float_zero (t d : float) :
  PrimFloat.eqb t 0 = true -> or_float (Some t) d = d.
Proof. intros H. unfold or_float, truthy_float. now rewrite H. Qed.

(** C4: the claim fails on the code.  The explicit temperature [0.0] is
    not dispatched: the request carries the default [0.7]. *)
Theorem send_prompt_zero_temperature :
  trace (snd (send_prompt Sample.local_only "describe X" (Some "ollama")
                          (Some "llama3.2") (Some 0%float)
                          (new Sample.local_only))) =
    [Get version_url;
     Post "http://localhost:11434/api/generate"
          (generate_body "llama3.2:latest" "describe X" float_0_7)].
Proof.
  rewrite (send_prompt_ollama_dispatch _ _ _ _ _ "llama3.2:latest").
  - rewrite or_float_zero by reflexivity.
    rewrite init_default_temperature. reflexivity.
  - apply ollama_model_unqualified; [discriminate | reflexivity].
Qed.

(** *** The answer of the local server *)

Lemma send_prompt_ollama_result (W : world) prompt model temperature s m :
  ollama_model (self s) model = Some m ->
  fst (send_prompt W prompt (Some "ollama") model temperature s) =
    Ret (match ollama_content
                 (requests_post W (generate_url (self s))
                    (generate_body m prompt
                       (or_float temperature (default_temperature (self s)))))
         with
         | Ret content => ollama_success content
         | Raise e => failure (str_exn e)
         end).
Proof.
  unfold ollama_model, unqualified, generate_url, generate_body,
    ollama_content, obind.
  unfold_send_prompt.
  destruct (truthy_str model && _)%bool eqn:Hu; intros Hm;
    [inversion Hm; subst m|];
    repeat step; try congruence; reflexivity.
Qed.

Lemma ollama_model_missing (W : world) prompt model temperature s :
  ollama_model (self s) model = None ->
  send_prompt W prompt (Some "ollama") model temperature s =
    (Raise missing_default_model, s).
Proof.
  unfold ollama_model. intros H.
  destruct (unqualified model) eqn:Hu; [discriminate|].
  apply send_prompt_missing_default; [discriminate | exact Hu | exact H].
Qed.

(** C6, as amended: when [send_prompt] with provider ["ollama"] issues its
    request and the generate endpoint answers it with status 200 and the
    body [{"response": t}], the result is a success whose content is [t]
    and whose token count is the string ["N/A"]. *)
Theorem send_prompt_ollama_success (W : world) prompt model temperature s u b r t :
  trace (snd (send_prompt W prompt (Some "ollama") model temperature s)) =
    trace s ++ [Post u b] ->
  requests_post W u b = Ret r ->
  status_code r = 200 ->
  json r = Ret (VDict [("response", t)]) ->
  exists result,
    fst (send_prompt W prompt (Some "ollama") model temperature s) = Ret result
    /\ result !! "success" = Some (VBool true)
    /\ result !! "content" = Some t
    /\ result !! "tokens_used" = Some (VStr "N/A").
Proof.
  intros Htrace Hpost Hstatus Hjson.
  destruct (ollama_model (self s) model) as [m|] eqn:Hm.
  - rewrite (send_prompt_ollama_dispatch _ _ _ _ _ _ Hm) in Htrace.
    apply app_inv_head in Htrace. inversion Htrace as [[Hu Hb]].
    rewrite (send_prompt_ollama_result _ _ _ _ _ _ Hm), Hu, Hb, Hpost.
    unfold ollama_content, obind, raise_for_status.
    rewrite Hstatus, Hjson. cbn.
    destruct (String.eqb_spec "response" "response"); [|congruence].
    eexists; split; [reflexivity|]. unfold ollama_success.
    repeat split; simplify_map_eq; reflexivity.
  - rewrite (ollama_model_missing _ _ _ _ _ Hm) in Htrace. cbn in Htrace.
    rewrite <- (app_nil_r (trace s)) in Htrace at 1.
    apply app_inv_head in Htrace. discriminate.
Qed.

Lemma send_prompt_ollama_success_witness :
  exists result,
    fst (send_prompt Sample.local_only "describe X" (Some "ollama")
                     (Some "llama3.2") None (new Sample.local_only))
      = Ret result
    /\ result !! "success" = Some (VBool true)
    /\ result !! "content" = Some (VStr "...text...")
    /\ result !! "tokens_used" = Some (VStr "N/A").
Proof.
  apply (send_prompt_ollama_success Sample.local_only "describe X"
           (Some "llama3.2") None (new Sample.local_only)
           "http://localhost:11434/api/generate"
           (generate_body "llama3.2:latest" "describe X" float_0_7)
           (Response 200 "OK" "http://localhost:11434/api/generate"
              (Ret (VDict [("response", VStr "...text...")])))
           (VStr "...text...")); reflexivity.
Defined.

(** C6, as stated, fails: the token count of a successful answer of the
    local server is the string ["N/A"], not [None]. *)
Lemma send_prompt_tokens_used_not_none :
  exists result,
    fst (send_prompt Sample.local_only "describe X" (Some "ollama")
                     (Some "llama3.2") None (new Sample.local_only))
      = Ret result
    /\ result !! "success" = Some (VBool true)
    /\ result !! "tokens_used" = Some (VStr "N/A")
    /\ result !! "tokens_used" <> Some VNone.
Proof.
  rewrite (send_prompt_ollama_result _ _ _ _ _ "llama3.2:latest")
    by reflexivity.
  eexists. split; [reflexivity|].
  change (ollama_content _) with (Ret (A:=val) (VStr "...text...")).
  unfold ollama_success.
  repeat split; simplify_map_eq; try reflexivity; discriminate.
Qed.

(** ** [get_available_models] *)

Lemma mapM_display_name (items : list val) (s : state) :
  mapM (fun model =>
          name <- lift (getitem model "name") ;;
          parts <- lift (split_colon name) ;;
          lift (item0 parts)) items s
  = (omapM display_name items, s).
Proof.
  induction items as [|x items IH]; [reflexivity|].
  cbn [mapM omapM]. unfold bind at 1. unfold bind at 1, lift at 1.
  unfold display_name at 1, obind at 1.
  destruct (getitem x "name") as [name|e]; [|reflexivity].
  unfold bind at 1, lift at 1, obind at 1.
  destruct (split_colon name) as [parts|e]; [|reflexivity].
  unfold lift at 1, obind at 1.
  destruct (item0 parts) as [y|e]; [|reflexivity].
  unfold bind at 1. rewrite IH. unfold obind.
  destruct (omapM display_name items); reflexivity.
Qed.

Lemma models_insert_openai (l : list string) :
  <[ "openai" := l ]> ({[ "openai" := []; "ollama" := [] ]} : gmap string (list string))
  = {[ "openai" := l; "ollama" := [] ]}.
Proof. apply insert_insert_eq. Qed.

Lemma models_insert_ollama (o l : list string) :
  <[ "ollama" := l ]> ({[ "openai" := o; "ollama" := [] ]} : gmap string (list string))
  = {[ "openai" := o; "ollama" := l ]}.
Proof.
  rewrite insert_insert_ne by discriminate.
  now rewrite insert_singleton_eq.
Qed.

Lemma models_lookup_openai (o l : list string) :
  ({[ "openai" := o; "ollama" := l ]} : gmap string (list string)) !! "openai"
  = Some o.
Proof. apply lookup_insert_eq. Qed.

Lemma models_lookup_ollama (o l : list string) :
  ({[ "openai" := o; "ollama" := l ]} : gmap string (list string)) !! "ollama"
  = Some l.
Proof.
  rewrite lookup_insert_ne by discriminate. apply lookup_singleton_eq.
Qed.

Lemma models_dom (o l : list string) :
  dom ({[ "openai" := o; "ollama" := l ]} : gmap string (list string))
  = ({[ "openai"; "ollama" ]} : gset string).
Proof. rewrite dom_insert_L, dom_singleton_L. reflexivity. Qed.

(** The call always returns, after one request to the tags endpoint. *)
Lemma get_available_models_eq (W : world) (s : state) :
  get_available_models W s =
    (Ret {[ "openai" := openai_entry (self s);
            "ollama" := ollama_entry W (self s) ]},
     State (self s) (trace s ++ [Get (tags_url (self s))])).
Proof.
  unfold get_available_models, get_request, openai_entry, ollama_entry,
    ollama_names, tags_url, openai_models.
  unfold bind at 1, attr at 1. unfold bind at 1, try_except at 1.
  unfold bind at 1, attr at 1. unfold bind at 1.
  unfold bind at 1, emit at 1, lift at 1.
  cbn [self trace].
  destruct (openai_client (self s)) as [c|];
    [rewrite models_insert_openai|];
    (destruct (requests_get W _) as [r|e]; [|reflexivity];
     destruct (status_code r =? 200); [|reflexivity];
     unfold bind at 1, lift at 1, obind at 1;
     destruct (json r) as [body|e]; [|reflexivity];
     unfold bind at 1, lift at 1, obind at 1;
     destruct (get body _ _) as [d|e]; [|reflexivity];
     unfold bind at 1, lift at 1, obind at 1;
     destruct (iter d) as [items|e]; [|reflexivity];
     unfold bind at 1; rewrite mapM_display_name;
     destruct (omapM display_name items) as [names|e]; [|reflexivity];
     unfold ret; rewrite models_insert_ollama; reflexivity).
Qed.

(** C7, as amended: for every state whose cloud client is initialised and
    every network state, the ["openai"] entry is the same list of three
    model names. *)
Theorem get_available_models_openai_with_client (W : world) (s : state) (c : client) :
  openai_client (self s) = Some c ->
  exists models,
    fst (get_available_models W s) = Ret models
    /\ models !! "openai" = Some ["gpt-4"; "gpt-3.5-turbo"; "gpt-4-turbo"].
Proof.
  intros Hc. rewrite get_available_models_eq. eexists. split; [reflexivity|].
  rewrite models_lookup_openai. unfold openai_entry. now rewrite Hc.
Qed.

Lemma get_available_models_openai_with_client_witness :
  exists models,
    fst (get_available_models Sample.both (new Sample.both)) = Ret models
    /\ models !! "openai" = Some ["gpt-4"; "gpt-3.5-turbo"; "gpt-4-turbo"].
Proof.
  apply (get_available_models_openai_with_client Sample.both
           (new Sample.both) (Client "sk-test")).
  reflexivity.
Defined.

(** C7, as stated, fails: without a credential the ["openai"] entry is the
    empty list. *)
Lemma get_available_models_openai_empty :
  exists models,
    fst (get_available_models Sample.local_only (new Sample.local_only))
      = Ret models
    /\ models !! "openai" = Some []
    /\ models !! "openai" <> Some ["gpt-4"; "gpt-3.5-turbo"; "gpt-4-turbo"].
Proof.
  rewrite get_available_models_eq. eexists. split; [reflexivity|].
  rewrite models_lookup_openai. split; [reflexivity | discriminate].
Qed.

(** C10: [get_available_models] always returns a dictionary with exactly
    the keys ["openai"] and ["ollama"], each bound to a list; the cloud
    entry is empty when the client is missing, the local entry is empty on
    a network exception and on a status other than 200. *)
Theorem get_available_models_shape (W : world) (s : state) :
  exists models : gmap string (list string),
    fst (get_available_models W s) = Ret models
    /\ dom models = ({[ "openai"; "ollama" ]} : gset string)
    /\ (openai_client (self s) = None -> models !! "openai" = Some [])
    /\ (forall e, requests_get W (tags_url (self s)) = Raise e ->
        models !! "ollama" = Some [])
    /\ (forall r, requests_get W (tags_url (self s)) = Ret r ->
        status_code r <> 200 -> models !! "ollama" = Some []).
Proof.
  rewrite get_available_models_eq. eexists. split; [reflexivity|].
  split; [apply models_dom|].
  rewrite models_lookup_openai, models_lookup_ollama.
  unfold openai_entry, ollama_entry. repeat split.
  - now intros ->.
  - now intros e ->.
  - intros r -> Hne. apply Z.eqb_neq in Hne. now rewrite Hne.
Qed.

Lemma get_available_models_shape_witness :
  (exists models : gmap string (list string),
     fst (get_available_models Sample.nothing (new Sample.nothing)) = Ret models
     /\ dom models = ({[ "openai"; "ollama" ]} : gset string)
     /\ models !! "openai" = Some []
     /\ models !! "ollama" = Some [])
  /\
  (exists models : gmap string (list string),
     fst (get_available_models Sample.overloaded (new Sample.overloaded))
       = Ret models
     /\ models !! "ollama" = Some []).
Proof.
  split.
  - destruct (get_available_models_shape Sample.nothing (new Sample.nothing))
      as (m & Hm & Hdom & Hopenai & Hexn & _).
    exists m. repeat split; try assumption.
    + apply Hopenai. reflexivity.
    + apply (Hexn Sample.refused). reflexivity.
  - destruct (get_available_models_shape Sample.overloaded
                (new Sample.overloaded))
      as (m & Hm & _ & _ & _ & Hstatus).
    exists m. split; [assumption|].
    apply (Hstatus (Response 503 "Service Unavailable"
                      "http://localhost:11434/api/tags"
                      (Raise Sample.not_json)));
      [reflexivity | discriminate].
Defined.

(** *** Display names *)

Lemma split_not_nil (c : ascii) (s : string) : split c s <> [].
Proof.
  destruct s as [|a s]; cbn; [discriminate|].
  destruct (Ascii.eqb a c); [discriminate|].
  destruct (split c s); discriminate.
Qed.

(** [s.split(":")[0]] is the text before the first [":"]. *)
Lemma split_first (base rest : string) :
  char_in ":" base = false ->
  item0 (split ":" (base +:+ ":" +:+ rest)) = Ret base.
Proof.
  induction base as [|a base IH]; intros Hc; [reflexivity|].
  cbn in Hc. change (String a base +:+ ":" +:+ rest)
    with (String a (base +:+ ":" +:+ rest)).
  cbn [split]. destruct (Ascii.eqb a ":"); [discriminate|].
  specialize (IH Hc).
  destruct (split ":" (base +:+ ":" +:+ rest)) as [|h t]; [discriminate|].
  cbn in IH |- *. congruence.
Qed.

Lemma split_no_colon (s : string) :
  char_in ":" s = false -> split ":" s = [s].
Proof.
  induction s as [|a s IH]; intros Hc; [reflexivity|].
  cbn in Hc |- *. destruct (Ascii.eqb a ":"); [discriminate|].
  now rewrite (IH Hc).
Qed.

Lemma strip_trailing_tag_no_colon (s : string) :
  char_in ":" s = false -> strip_trailing_tag s = s.
Proof.
  destruct s as [|a s]; [reflexivity|]. cbn.
  destruct (Ascii.eqb a ":"); [discriminate|]. now intros ->.
Qed.

Lemma strip_trailing_tag_app (base tag : string) :
  char_in ":" tag = false ->
  strip_trailing_tag (base +:+ ":" +:+ tag) = base.
Proof.
  intros Ht. induction base as [|a base IH].
  - change (EmptyString +:+ ":" +:+ tag) with (String ":" tag).
    cbn [strip_trailing_tag]. now rewrite Ht.
  - change (String a base +:+ ":" +:+ tag)
      with (String a (base +:+ ":" +:+ tag)).
    cbn [strip_trailing_tag]. rewrite char_in_app. cbn [char_in].
    change (Ascii.eqb ":" ":") with true. cbn.
    rewrite orb_true_r. now rewrite IH.
Qed.

(** On a name with one [":"], the code strips the trailing tag. *)
Lemma display_name_strips_tag (base tag : string) :
  char_in ":" base = false ->
  char_in ":" tag = false ->
  display_name (VDict [("name", VStr (base +:+ ":" +:+ tag))])
  = Ret (strip_trailing_tag (base +:+ ":" +:+ tag)).
Proof.
  intros Hb Ht. rewrite strip_trailing_tag_app by exact Ht.
  unfold display_name. cbn. now apply split_first.
Qed.

(** A name without [":"] is displayed as it is. *)
Lemma display_name_plain (name : string) :
  char_in ":" name = false ->
  display_name (VDict [("name", VStr name)]) = Ret name.
Proof.
  intros Hc. unfold display_name. cbn. now rewrite split_no_colon.
Qed.

(** The example of the specification: ["llama3.2:latest"] is listed as
    ["llama3.2"]. *)
Lemma get_available_models_example :
  exists models,
    fst (get_available_models Sample.local_only (new Sample.local_only))
      = Ret models
    /\ models !! "ollama" = Some ["llama3.2"].
Proof.
  rewrite get_available_models_eq. eexists. split; [reflexivity|].
  rewrite models_lookup_ollama. reflexivity.
Qed.

(** C8: the claim fails on the code.  The name
    ["registry.local:5000/llama3.2:latest"] is listed as
    ["registry.local"]: the code keeps the text before the first [":"],
    where stripping the trailing tag gives
    ["registry.local:5000/llama3.2"]. *)
Theorem get_available_models_registry_name :
  exists models,
    fst (get_available_models Sample.registry (new Sample.registry))
      = Ret models
    /\ models !! "ollama" = Some ["registry.local"]
    /\ strip_trailing_tag "registry.local:5000/llama3.2:latest"
       = "registry.local:5000/llama3.2".
Proof.
  rewrite get_available_models_eq. eexists. split; [reflexivity|].
  rewrite models_lookup_ollama. split; reflexivity.
Qed.

(** ** More on initialisation *)

(** X1: [__init__] never raises, whatever the environment and the network
    do, and issues exactly one request: the GET of the version endpoint. *)
Theorem init_returns_one_request (W : world) (s : state) :
  fst (__init__ W s) = Ret tt /\
  trace (snd (__init__ W s)) = trace s ++ [Get version_url].
Proof.
  unfold __init__, get_request, set_openai_client, set_ollama_endpoint,
    set_current_provider, set_default_temperature, set_default_model,
    version_url.
  run.
  destruct (truthy_str (getenv W "OPENAI_API_KEY")); cbn;
    [destruct (OpenAI W _) as [c|e]; cbn|];
    (destruct (requests_get W _) as [r|e']; cbn;
     [destruct (status_code r =? 200); cbn;
      [destruct (json r) as [b|e'']; cbn; [destruct (get b _ _); cbn|]|]|]);
    auto.
Qed.

(** X2: after [__init__] the cloud client exists exactly when the
    credential is a non-empty string and the constructor returned: an
    empty credential and a raising constructor both leave it [None]. *)
Theorem init_client_iff (W : world) (c : client) :
  openai_client (self (new W)) = Some c <->
  truthy_str (getenv W "OPENAI_API_KEY") = true /\
  OpenAI W (fmt (getenv W "OPENAI_API_KEY")) = Ret c.
Proof.
  destruct (new_eq W) as [H _]. rewrite H. cbn. unfold cloud_detected.
  destruct (truthy_str (getenv W "OPENAI_API_KEY")); cbn.
  - destruct (OpenAI W _) as [c'|e]; split.
    + intros [= ->]. auto.
    + intros [_ [= ->]]. reflexivity.
    + discriminate.
    + intros [_ [=]].
  - split; [discriminate | intros [[=] _]].
Qed.

(** X3: the attributes [__init__] leaves are consistent: the current
    provider is ["openai"] exactly when the client exists, it is [None]
    exactly when no default model is stored, it is never a third name, and
    when it is ["ollama"] the stored default is ["llama3.2:latest"]. *)
Theorem init_consistent (W : world) :
  let a := self (new W) in
  (current_provider a = Some "openai" <-> is_Some (openai_client a))
  /\ (current_provider a = None <-> default_model a = None)
  /\ (current_provider a = Some "ollama" ->
      default_model a = Some "llama3.2:latest")
  /\ (current_provider a = None \/ current_provider a = Some "openai"
      \/ current_provider a = Some "ollama").
Proof.
  destruct (new_eq W) as [H _]. cbn zeta. rewrite H. cbn.
  unfold cloud_detected.
  destruct (truthy_str (getenv W "OPENAI_API_KEY")); cbn;
    [destruct (OpenAI W _) as [c|e]; cbn|];
    destruct (local_detected W); cbn;
    (repeat split; try discriminate; try congruence; eauto;
     try (intros [x Hx]; discriminate)).
Qed.

(** ** The cloud branch of [send_prompt] *)

(** X4: when the call resolves to ["openai"], the client exists and the
    completion has a first choice and a usage record, the result is a
    success carrying that choice's content and the total token count. *)
Theorem send_prompt_openai_success (W : world) prompt provider model
    temperature s c r content rest n :
  or_str provider (current_provider (self s)) = Some "openai" ->
  openai_client (self s) = Some c ->
  chat_completions_create W c (fmt (or_str model (Some "gpt-4")))
    [("user", prompt)]
    (or_float temperature (default_temperature (self s))) = Ret r ->
  choices r = content :: rest ->
  usage r = Some n ->
  fst (send_prompt W prompt provider model temperature s) =
    Ret (openai_success content n).
Proof.
  intros Hp Hc Hr Hch Hu. unfold openai_success. unfold_send_prompt.
  destruct (decide _) as [_|]; [|contradiction]. cbn.
  rewrite Hc. cbn. rewrite Hr. cbn. rewrite Hch. cbn. rewrite Hu. reflexivity.
Qed.

Lemma send_prompt_openai_success_witness :
  fst (send_prompt Sample.both "describe X" None None None (new Sample.both))
  = Ret (openai_success (Some "an idea") 42).
Proof.
  apply (send_prompt_openai_success Sample.both "describe X" None None None
           (new Sample.both) (Client "sk-test")
           (Completion [Some "an idea"] (Some 42)) (Some "an idea") [] 42);
    reflexivity.
Defined.

(** X5: when the completion call raises, the result is a failure carrying
    the exception's message, after that one request. *)
Theorem send_prompt_openai_exception (W : world) prompt provider model
    temperature s c e :
  or_str provider (current_provider (self s)) = Some "openai" ->
  openai_client (self s) = Some c ->
  chat_completions_create W c (fmt (or_str model (Some "gpt-4")))
    [("user", prompt)]
    (or_float temperature (default_temperature (self s))) = Raise e ->
  send_prompt W prompt provider model temperature s =
    (Ret (failure (str_exn e)),
     State (self s)
       (trace s ++
        [ChatCreate (fmt (or_str model (Some "gpt-4"))) [("user", prompt)]
           (or_float temperature (default_temperature (self s)))])).
Proof.
  intros Hp Hc He. unfold failure. unfold_send_prompt.
  destruct (decide _) as [_|]; [|contradiction]. cbn.
  rewrite Hc. cbn. rewrite He. reflexivity.
Qed.

Lemma send_prompt_openai_exception_witness :
  fst (send_prompt Cloud.failing "describe X" None None None
                   (new Cloud.failing))
  = Ret (failure "Error code: 429 - rate limit exceeded").
Proof.
  rewrite (send_prompt_openai_exception Cloud.failing "describe X" None None
             None (new Cloud.failing) (Client "sk-test") Cloud.rate_limited);
    reflexivity.
Defined.

(** X6: a completion without choices, or with a first choice but without
    usage record, does not raise: the result is a failure with the message
    of the [IndexError], respectively of the [AttributeError]. *)
Theorem send_prompt_openai_malformed (W : world) prompt provider model
    temperature s c r :
  or_str provider (current_provider (self s)) = Some "openai" ->
  openai_client (self s) = Some c ->
  chat_completions_create W c (fmt (or_str model (Some "gpt-4")))
    [("user", prompt)]
    (or_float temperature (default_temperature (self s))) = Ret r ->
  (choices r = [] ->
   fst (send_prompt W prompt provider model temperature s) =
     Ret (failure "list index out of range"))
  /\ (choices r <> [] -> usage r = None ->
      fst (send_prompt W prompt provider model temperature s) =
        Ret (failure "'NoneType' object has no attribute 'total_tokens'")).
Proof.
  intros Hp Hc Hr. unfold failure. unfold_send_prompt.
  destruct (decide _) as [_|]; [|contradiction]. cbn.
  rewrite Hc. cbn. rewrite Hr. cbn. split.
  - intros ->. reflexivity.
  - intros Hne ->. destruct (choices r); [contradiction | reflexivity].
Qed.

Lemma send_prompt_openai_malformed_witness :
  fst (send_prompt Cloud.no_choices "describe X" None None None
                   (new Cloud.no_choices))
  = Ret (failure "list index out of range")
  /\ fst (send_prompt Cloud.no_usage "describe X" None None None
                      (new Cloud.no_usage))
     = Ret (failure "'NoneType' object has no attribute 'total_tokens'").
Proof.
  split.
  - apply (send_prompt_openai_malformed Cloud.no_choices "describe X" None
             None None (new Cloud.no_choices) (Client "sk-test")
             (Completion [] (Some 7))); reflexivity.
  - apply (send_prompt_openai_malformed Cloud.no_usage "describe X" None
             None None (new Cloud.no_usage) (Client "sk-test")
             (Completion [Some "an idea"] None));
      [reflexivity | reflexivity | reflexivity | discriminate | reflexivity].
Defined.

(** X7: for the cloud provider an explicit, non-empty model name is
    dispatched as given, qualified or not; without one the model is
    ["gpt-4"], never the stored default. *)
Theorem send_prompt_openai_model (W : world) prompt provider model
    temperature s c :
  or_str provider (current_provider (self s)) = Some "openai" ->
  openai_client (self s) = Some c ->
  exists m,
    trace (snd (send_prompt W prompt provider model temperature s)) =
      trace s ++
      [ChatCreate m [("user", prompt)]
         (or_float temperature (default_temperature (self s)))]
    /\ (forall name, model = Some name -> name <> EmptyString -> m = name)
    /\ (truthy_str model = false -> m = "gpt-4").
Proof.
  intros Hp Hc. eexists. split; [|split].
  - apply (send_prompt_openai_dispatch _ _ _ _ _ _ c Hp Hc).
  - intros name -> Hne. unfold or_str. cbn.
    destruct (String.eqb_spec name EmptyString); [contradiction | reflexivity].
  - intros Hf. unfold or_str. now rewrite Hf.
Qed.

Lemma send_prompt_openai_model_witness :
  trace (snd (send_prompt Sample.both "describe X" None
                          (Some "ft:gpt-4:acme") None (new Sample.both))) =
    [Get version_url;
     ChatCreate "ft:gpt-4:acme" [("user", "describe X")] float_0_7].
Proof.
  destruct (send_prompt_openai_model Sample.both "describe X" None
              (Some "ft:gpt-4:acme") None (new Sample.both)
              (Client "sk-test") eq_refl eq_refl) as (m & Ht & Hname & _).
  rewrite Ht, (Hname "ft:gpt-4:acme" eq_refl); [reflexivity | discriminate].
Defined.

(** ** [send_prompt] in general *)

(** X8: an empty provider string is the same as no provider, and an empty
    model string the same as no model. *)
Theorem send_prompt_empty_strings (W : world) prompt provider model
    temperature s :
  send_prompt W prompt (Some EmptyString) model temperature s =
    send_prompt W prompt None model temperature s
  /\ send_prompt W prompt provider (Some EmptyString) temperature s =
       send_prompt W prompt provider None temperature s.
Proof.
  split.
  - reflexivity.
  - unfold_send_prompt. repeat step; reflexivity.
Qed.


Lemma raise_for_status_ok (r : response) :
  error_status (status_code r) = false -> raise_for_status r = Ret tt.
Proof.
  unfold error_status, raise_for_status.
  destruct (Z.leb_spec 400 (status_code r)), (Z.ltb_spec (status_code r) 500),
    (Z.leb_spec 500 (status_code r)), (Z.ltb_spec (status_code r) 600);
    cbn; intros; try reflexivity; try discriminate; lia.
Qed.

Lemma raise_for_status_error (r : response) :
  error_status (status_code r) = true ->
  exists msg, raise_for_status r = Raise (Exn HTTPError msg).
Proof.
  unfold error_status, raise_for_status.
  destruct (Z.leb_spec 400 (status_code r)), (Z.ltb_spec (status_code r) 500),
    (Z.leb_spec 500 (status_code r)), (Z.ltb_spec (status_code r) 600);
    cbn; intros; try discriminate; eauto; lia.
Qed.

(** X10: when the generate endpoint answers with a status from 400 to 599,
    the result is a failure carrying the message of the [HTTPError] that
    [raise_for_status] raises; the body is not read. *)
Theorem send_prompt_ollama_http_error (W : world) prompt model temperature
    s m r :
  ollama_model (self s) model = Some m ->
  requests_post W (generate_url (self s))
    (generate_body m prompt
       (or_float temperature (default_temperature (self s)))) = Ret r ->
  error_status (status_code r) = true ->
  exists msg,
    raise_for_status r = Raise (Exn HTTPError msg) /\
    fst (send_prompt W prompt (Some "ollama") model temperature s) =
      Ret (failure msg).
Proof.
  intros Hm Hr Hs. rewrite (send_prompt_ollama_result _ _ _ _ _ _ Hm), Hr.
  destruct (raise_for_status_error r Hs) as [msg Hmsg].
  exists msg. split; [exact Hmsg|].
  unfold ollama_content, obind. now rewrite Hmsg.
Qed.

Lemma send_prompt_ollama_http_error_witness :
  fst (send_prompt Local.missing "describe X" (Some "ollama")
                   (Some "llama3.2") None (new Local.missing))
  = Ret (failure
           "404 Client Error: Not Found for url: http://localhost:11434/api/generate").
Proof.
  destruct (send_prompt_ollama_http_error Local.missing "describe X"
              (Some "llama3.2") None (new Local.missing) "llama3.2:latest"
              (Response 404 "Not Found" "http://localhost:11434/api/generate"
                 (Raise Sample.not_json))
              eq_refl eq_refl eq_refl) as (msg & Hmsg & Hres).
  rewrite Hres. vm_compute in Hmsg. injection Hmsg as <-. reflexivity.
Defined.

(** X11: the status is not compared with 200: for every status outside
    400..599 and a body that is a JSON object, the result is a success whose
    content is the object's ["response"] entry, or the empty string when
    the object has none. *)
Theorem send_prompt_ollama_lenient (W : world) prompt model temperature
    s m r d :
  ollama_model (self s) model = Some m ->
  requests_post W (generate_url (self s))
    (generate_body m prompt
       (or_float temperature (default_temperature (self s)))) = Ret r ->
  error_status (status_code r) = false ->
  json r = Ret (VDict d) ->
  fst (send_prompt W prompt (Some "ollama") model temperature s) =
    Ret (ollama_success (default (VStr EmptyString) (assoc "response" d))).
Proof.
  intros Hm Hr Hs Hj. rewrite (send_prompt_ollama_result _ _ _ _ _ _ Hm), Hr.
  unfold ollama_content, obind.
  rewrite (raise_for_status_ok r Hs), Hj. reflexivity.
Qed.

Lemma send_prompt_ollama_lenient_witness :
  fst (send_prompt Local.created "describe X" (Some "ollama")
                   (Some "llama3.2") None (new Local.created))
  = Ret (ollama_success (VStr EmptyString)).
Proof.
  apply (send_prompt_ollama_lenient Local.created "describe X"
           (Some "llama3.2") None (new Local.created) "llama3.2:latest"
           (Response 201 "Created" "http://localhost:11434/api/generate"
              (Ret (VDict []))) []);
    reflexivity.
Defined.

(** X12: an answer outside 400..599 whose body is not JSON, or is JSON but
    not an object, gives a failure: with the message of the decoding
    error, respectively of the [AttributeError] for the missing [get]. *)
Theorem send_prompt_ollama_bad_body (W : world) prompt model temperature
    s m r :
  ollama_model (self s) model = Some m ->
  requests_post W (generate_url (self s))
    (generate_body m prompt
       (or_float temperature (default_temperature (self s)))) = Ret r ->
  error_status (status_code r) = false ->
  (forall e, json r = Raise e ->
     fst (send_prompt W prompt (Some "ollama") model temperature s) =
       Ret (failure (str_exn e)))
  /\ (forall v, json r = Ret v -> (forall d, v <> VDict d) ->
        fst (send_prompt W prompt (Some "ollama") model temperature s) =
          Ret (failure ("'" +:+ type_name v
                          +:+ "' object has no attribute 'get'"))).
Proof.
  intros Hm Hr Hs. rewrite (send_prompt_ollama_result _ _ _ _ _ _ Hm), Hr.
  unfold ollama_content, obind. rewrite (raise_for_status_ok r Hs).
  split.
  - intros e ->. reflexivity.
  - intros v -> Hv. destruct v; try reflexivity. destruct (Hv d eq_refl).
Qed.

Lemma send_prompt_ollama_bad_body_witness :
  fst (send_prompt Local.html "describe X" (Some "ollama")
                   (Some "llama3.2") None (new Local.html))
  = Ret (failure "Expecting value: line 1 column 1 (char 0)")
  /\ fst (send_prompt Local.array "describe X" (Some "ollama")
                      (Some "llama3.2") None (new Local.array))
     = Ret (failure "'list' object has no attribute 'get'").
Proof.
  split.
  - destruct (send_prompt_ollama_bad_body Local.html "describe X"
                (Some "llama3.2") None (new Local.html) "llama3.2:latest"
                (Response 200 "OK" "http://localhost:11434/api/generate"
                   (Raise Sample.not_json)) eq_refl eq_refl eq_refl)
      as [Hexn _].
    apply (Hexn Sample.not_json). reflexivity.
  - destruct (send_prompt_ollama_bad_body Local.array "describe X"
                (Some "llama3.2") None (new Local.array) "llama3.2:latest"
                (Response 200 "OK" "http://localhost:11434/api/generate"
                   (Ret (VList []))) eq_refl eq_refl eq_refl)
      as [_ Hval].
    apply (Hval (VList [])); [reflexivity | discriminate].
Defined.

(** X13: a dictionary [send_prompt] returns has one of two shapes: a
    failure with exactly ["success"] (false) and ["error"], or a success
    with exactly ["success"] (true), ["content"] and ["tokens_used"], the
    latter an integer or the string ["N/A"]. *)
Theorem send_prompt_result_shape (W : world) prompt provider model
    temperature s result :
  fst (send_prompt W prompt provider model temperature s) = Ret result ->
  (exists msg, result = failure msg)
  \/ (exists content tokens,
        result = {[ "success" := VBool true; "content" := content;
                    "tokens_used" := tokens ]}
        /\ (tokens = VStr "N/A" \/ exists n, tokens = VInt n)).
Proof.
  unfold failure. unfold_send_prompt.
  repeat step; intros [= <-]; eauto 8; discriminate.
Qed.

Lemma send_prompt_result_shape_witness :
  (exists msg,
     openai_success (Some "an idea") 42 = failure msg)
  \/ (exists content tokens,
        openai_success (Some "an idea") 42 =
          {[ "success" := VBool true; "content" := content;
             "tokens_used" := tokens ]}
        /\ (tokens = VStr "N/A" \/ exists n, tokens = VInt n)).
Proof.
  apply (send_prompt_result_shape Sample.both "describe X" None None None
           (new Sample.both)).
  reflexivity.
Defined.

(** Without a provider argument the call is the one for the current
    provider. *)
Lemma send_prompt_current_provider (W : world) prompt model temperature s p :
  current_provider (self s) = Some p ->
  send_prompt W prompt None model temperature s =
    send_prompt W prompt (Some p) model temperature s.
Proof.
  intros Hcur.
  assert (or_str (Some p) (Some p) = Some p) as Hor.
  { unfold or_str. now destruct (truthy_str (Some p)). }
  assert (forall A B (f : AIProjectAssistant -> A) (k : A -> M B) s0,
            bind (attr f) k s0 = k (f (self s0)) s0) as bind_attr
    by reflexivity.
  unfold send_prompt. rewrite !bind_attr, Hcur.
  change (or_str None (Some p)) with (Some p).
  rewrite Hor. reflexivity.
Qed.

(** X14: after initialisation, a call with the prompt alone goes to the
    current provider with that provider's model and the temperature 0.7:
    a chat completion with ["gpt-4"] when the cloud provider was detected
    (also when the stored default is the local model), else a POST with
    ["llama3.2:latest"] when the local server was detected. *)
Theorem send_prompt_default_dispatch (W : world) (prompt : string) :
  (cloud_detected W = true ->
   trace (snd (send_prompt W prompt None None None (new W))) =
     [Get version_url; ChatCreate "gpt-4" [("user", prompt)] float_0_7])
  /\ (cloud_detected W = false -> local_detected W = true ->
      trace (snd (send_prompt W prompt None None None (new W))) =
        [Get version_url;
         Post "http://localhost:11434/api/generate"
              (generate_body "llama3.2:latest" prompt float_0_7)]).
Proof.
  destruct (new_eq W) as [Hself Htrace]. split.
  - intros Hc. rewrite Hc in Hself.
    assert (exists c, openai_client (self (new W)) = Some c) as [c Hcl].
    { rewrite Hself. cbn. unfold cloud_detected in Hc.
      destruct (OpenAI W _); [eauto|].
      rewrite andb_false_r in Hc. discriminate. }
    rewrite (send_prompt_openai_dispatch _ _ _ _ _ _ c); [| |exact Hcl].
    + rewrite Htrace, Hself. reflexivity.
    + rewrite Hself. reflexivity.
  - intros Hc Hl. rewrite Hc, Hl in Hself.
    rewrite (send_prompt_current_provider _ _ _ _ _ "ollama")
      by (rewrite Hself; reflexivity).
    rewrite (send_prompt_ollama_dispatch _ _ _ _ _ "llama3.2:latest").
    + rewrite Htrace. unfold generate_url. rewrite Hself. reflexivity.
    + rewrite Hself. reflexivity.
Qed.

Lemma send_prompt_default_dispatch_witness :
  trace (snd (send_prompt Sample.both "describe X" None None None
                          (new Sample.both))) =
    [Get version_url; ChatCreate "gpt-4" [("user", "describe X")] float_0_7]
  /\ trace (snd (send_prompt Sample.local_only "describe X" None None None
                             (new Sample.local_only))) =
       [Get version_url;
        Post "http://localhost:11434/api/generate"
             (generate_body "llama3.2:latest" "describe X" float_0_7)].
Proof.
  split.
  - apply (send_prompt_default_dispatch Sample.both "describe X").
    reflexivity.
  - apply (send_prompt_default_dispatch Sample.local_only "describe X");
      reflexivity.
Defined.

(** ** [brainstorm_project] and [get_code_suggestion] *)

(** X15: after initialisation, [brainstorm_project] and
    [get_code_suggestion] return a dictionary exactly when some provider is
    current; when none was detected they raise. *)
Theorem helpers_return_iff (W : world) (text : string) :
  ((exists r, fst (brainstorm_project W text (new W)) = Ret r) <->
   current_provider (self (new W)) <> None)
  /\ ((exists r, fst (get_code_suggestion W text (new W)) = Ret r) <->
      current_provider (self (new W)) <> None).
Proof.
  assert (forall prompt,
            (exists r, fst (send_prompt W prompt None None None (new W)) = Ret r)
            <-> current_provider (self (new W)) <> None) as H.
  { intros prompt. split.
    - intros [r Hr] Hnone.
      rewrite send_prompt_missing_default in Hr.
      + discriminate.
      + cbn. rewrite Hnone. discriminate.
      + reflexivity.
      + now apply init_default_model_iff.
    - intros Hcur.
      destruct (default_model (self (new W))) as [d|] eqn:Hd.
      + apply (send_prompt_returns _ _ _ _ _ _ d Hd).
      + apply init_default_model_iff in Hd. contradiction. }
  split; apply H.
Qed.

(** ** More on [get_available_models] *)

(** X16: [get_available_models] never raises, leaves the object as it is
    and issues exactly one request, the GET of the tags endpoint; the cloud
    API is not asked. *)
Theorem get_available_models_one_request (W : world) (s : state) :
  (exists models, fst (get_available_models W s) = Ret models)
  /\ snd (get_available_models W s) =
       State (self s) (trace s ++ [Get (tags_url (self s))]).
Proof.
  rewrite get_available_models_eq. split; [eexists|]; reflexivity.
Qed.

Lemma omapM_raise {A B} (f : A -> outcome B) (l : list A) (x : A) (e : exn) :
  In x l -> f x = Raise e -> exists e', omapM f l = Raise e'.
Proof.
  induction l as [|y l IH]; intros Hin Hx; [destruct Hin|].
  cbn. destruct Hin as [->|Hin].
  - rewrite Hx. cbn. eauto.
  - destruct (f y); cbn; [|eauto].
    destruct (IH Hin Hx) as [e' ->]. cbn. eauto.
Qed.

(** X17: the local list is all or nothing: one descriptor whose name cannot
    be read (no ["name"] entry, not an object, a name that is no string)
    makes the whole ["ollama"] entry empty. *)
Theorem get_available_models_bad_descriptor (W : world) (s : state)
    r body items x e :
  requests_get W (tags_url (self s)) = Ret r ->
  status_code r = 200 ->
  json r = Ret body ->
  get body "models" (VList []) = Ret (VList items) ->
  In x items ->
  display_name x = Raise e ->
  exists models,
    fst (get_available_models W s) = Ret models
    /\ models !! "ollama" = Some [].
Proof.
  intros Hr Hs Hj Hg Hin Hx.
  rewrite get_available_models_eq. eexists. split; [reflexivity|].
  rewrite models_lookup_ollama. unfold ollama_entry, ollama_names.
  rewrite Hr, Hs, Hj. cbn. rewrite Hg. cbn.
  now destruct (omapM_raise display_name items x e Hin Hx) as [e' ->].
Qed.

Lemma get_available_models_bad_descriptor_witness :
  exists models,
    fst (get_available_models Tags.unnamed (new Tags.unnamed)) = Ret models
    /\ models !! "ollama" = Some [].
Proof.
  apply (get_available_models_bad_descriptor Tags.unnamed (new Tags.unnamed)
           (Response 200 "OK" "http://localhost:11434/api/tags"
              (Ret (VDict [("models", VList Tags.unnamed_items)])))
           (VDict [("models", VList Tags.unnamed_items)])
           Tags.unnamed_items
           (VDict [("model", VStr "mistral:7b")])
           (Exn KeyError "'name'"));
    try reflexivity.
  right. left. reflexivity.
Defined.

(** X18: when the tags endpoint answers 200 with a body that is not JSON,
    that is JSON but no object, or that is an object without ["models"],
    the ["ollama"] entry is empty. *)
Theorem get_available_models_bad_body (W : world) (s : state) r :
  requests_get W (tags_url (self s)) = Ret r ->
  status_code r = 200 ->
  exists models,
    fst (get_available_models W s) = Ret models
    /\ (forall e, json r = Raise e -> models !! "ollama" = Some [])
    /\ (forall v, json r = Ret v -> (forall d, v <> VDict d) ->
        models !! "ollama" = Some [])
    /\ (forall d, json r = Ret (VDict d) -> assoc "models" d = None ->
        models !! "ollama" = Some []).
Proof.
  intros Hr Hs.
  rewrite get_available_models_eq. eexists. split; [reflexivity|].
  rewrite models_lookup_ollama. unfold ollama_entry, ollama_names.
  rewrite Hr, Hs. cbn. repeat split.
  - now intros e ->.
  - intros v -> Hv. destruct v; try reflexivity. destruct (Hv d eq_refl).
  - intros d -> Hd. cbn. now rewrite Hd.
Qed.

Lemma get_available_models_bad_body_witness :
  (exists models,
     fst (get_available_models Tags.html (new Tags.html)) = Ret models
     /\ models !! "ollama" = Some [])
  /\ (exists models,
        fst (get_available_models Tags.no_list (new Tags.no_list)) = Ret models
        /\ models !! "ollama" = Some []).
Proof.
  split.
  - destruct (get_available_models_bad_body Tags.html (new Tags.html)
                (Response 200 "OK" "http://localhost:11434/api/tags"
                   (Raise Sample.not_json)) eq_refl eq_refl)
      as (m & Hm & Hexn & _).
    exists m. split; [exact Hm|]. apply (Hexn Sample.not_json). reflexivity.
  - destruct (get_available_models_bad_body Tags.no_list (new Tags.no_list)
                (Response 200 "OK" "http://localhost:11434/api/tags"
                   (Ret (VDict [("error", VStr "busy")]))) eq_refl eq_refl)
      as (m & Hm & _ & _ & Hkey).
    exists m. split; [exact Hm|].
    apply (Hkey [("error", VStr "busy")]); reflexivity.
Defined.










(** ** The application *)

Lemma update_model_choices_eq (W : world) (provider : string) (s : state) :
  update_model_choices W provider s =
    (Ret (MkDropdown
            (default []
               (({[ "openai" := openai_entry (self s);
                    "ollama" := ollama_entry W (self s) ]}
                 : gmap string (list string)) !! provider))
            (if String.eqb provider "openai" then "gpt-4" else "llama3.2")),
     State (self s) (trace s ++ [Get (tags_url (self s))])).
Proof.
  unfold update_model_choices, get_model_choices, bind.
  rewrite get_available_models_eq. reflexivity.
Qed.

(** X21: for the provider ["openai"], [update_model_choices] preselects
    ["gpt-4"]; with a client the choices are the three cloud models, of
    which ["gpt-4"] is one; without a client the choices are empty, so the
    preselected value is not among them. *)
Theorem update_model_choices_openai (W : world) (s : state) :
  exists d,
    fst (update_model_choices W "openai" s) = Ret d
    /\ dropdown_value d = "gpt-4"
    /\ (is_Some (openai_client (self s)) ->
        dropdown_choices d = ["gpt-4"; "gpt-3.5-turbo"; "gpt-4-turbo"]
        /\ In (dropdown_value d) (dropdown_choices d))
    /\ (openai_client (self s) = None ->
        dropdown_choices d = []
        /\ ~ In (dropdown_value d) (dropdown_choices d)).
Proof.
  rewrite update_model_choices_eq. eexists. split; [reflexivity|].
  cbn [fst dropdown_value dropdown_choices]. rewrite models_lookup_openai.
  unfold openai_entry. split; [reflexivity|]. split.
  - intros [c ->]. cbn. auto.
  - intros ->. cbn. auto.
Qed.

(** X22: for every provider other than ["openai"], [update_model_choices]
    preselects ["llama3.2"]; the choices are the local list for ["ollama"]
    and empty for any other name. *)
Theorem update_model_choices_other (W : world) (provider : string) (s : state) :
  provider <> "openai" ->
  exists d,
    fst (update_model_choices W provider s) = Ret d
    /\ dropdown_value d = "llama3.2"
    /\ (provider = "ollama" -> dropdown_choices d = ollama_entry W (self s))
    /\ (provider <> "ollama" -> dropdown_choices d = []).
Proof.
  intros Hne. rewrite update_model_choices_eq. eexists.
  split; [reflexivity|]. cbn [fst dropdown_value dropdown_choices].
  destruct (String.eqb_spec provider "openai"); [contradiction|].
  split; [reflexivity|]. split.
  - intros ->. now rewrite models_lookup_ollama.
  - intros Hno. rewrite lookup_insert_ne by congruence.
    rewrite lookup_singleton_ne by congruence. reflexivity.
Qed.

Lemma update_model_choices_other_witness :
  (exists d,
     fst (update_model_choices Sample.local_only "ollama"
            (new Sample.local_only)) = Ret d
     /\ dropdown_value d = "llama3.2"
     /\ dropdown_choices d = ["llama3.2"])
  /\ (exists d,
        fst (update_model_choices Sample.local_only "anthropic"
               (new Sample.local_only)) = Ret d
        /\ dropdown_value d = "llama3.2"
        /\ dropdown_choices d = []).
Proof.
  split.
  - destruct (update_model_choices_other Sample.local_only "ollama"
                (new Sample.local_only) ltac:(discriminate))
      as (d & Hd & Hv & Hollama & _).
    exists d. split; [exact Hd|]. split; [exact Hv|].
    rewrite (Hollama eq_refl). reflexivity.
  - destruct (update_model_choices_other Sample.local_only "anthropic"
                (new Sample.local_only) ltac:(discriminate))
      as (d & Hd & Hv & _ & Hother).
    exists d. split; [exact Hd|]. split; [exact Hv|].
    apply Hother. discriminate.
Defined.

Lemma process_input_is_blank (W : world) (repr : val -> string)
    input_type query provider model s :
  is_blank query = true ->
  process_input W repr input_type query provider model s =
    (Ret (VStr EmptyString, "Please enter a query"), s).
Proof. intros H. unfold process_input. now rewrite H. Qed.

Lemma is_blank_ascii_spaces (query : string) :
  (forall a, In a (list_ascii_of_string query) ->
             space1 (N_of_ascii a) = true) ->
  is_blank query = true.
Proof.
  induction query as [|a query IH]; intros H; [reflexivity|].
  cbn [is_blank]. rewrite (H a) by (left; reflexivity).
  apply IH. intros b Hb. apply H. right. exact Hb.
Qed.

(** X23: a query whose characters are all ASCII whitespace (code 9 to 13 or
    28 to 32), the empty query included, is answered with the fixed
    message, without a request and without an exception, whatever was
    detected at initialisation and whichever kind of help is asked. *)
Theorem process_input_blank (W : world) (repr : val -> string)
    input_type query provider model s :
  (forall a, In a (list_ascii_of_string query) ->
             space1 (N_of_ascii a) = true) ->
  process_input W repr input_type query provider model s =
    (Ret (VStr EmptyString, "Please enter a query"), s).
Proof.
  intros H. apply process_input_is_blank. now apply is_blank_ascii_spaces.
Qed.

Lemma process_input_blank_witness :
  process_input Sample.nothing quote "brainstorm" "   " "openai" "gpt-4"
                (new Sample.nothing) =
    (Ret (VStr EmptyString, "Please enter a query"), new Sample.nothing).
Proof.
  apply (process_input_blank Sample.nothing quote "brainstorm" "   "
           "openai" "gpt-4" (new Sample.nothing)).
  intros a [<-|[<-|[<-|[]]]]; reflexivity.
Defined.

Lemma process_input_call (W : world) (repr : val -> string)
    input_type query provider model s :
  is_blank query = false ->
  process_input W repr input_type query provider model s =
    bind (assistant_call W input_type query) (present repr) s.
Proof.
  intros H. unfold process_input, assistant_call. rewrite H.
  destruct (String.eqb input_type "brainstorm"); reflexivity.
Qed.

Lemma assistant_call_send_prompt (W : world) (input_type query : string) :
  exists prompt,
    assistant_call W input_type query = send_prompt W prompt None None None.
Proof.
  unfold assistant_call, brainstorm_project, get_code_suggestion.
  destruct (String.eqb input_type "brainstorm"); eexists; reflexivity.
Qed.

Lemma success_dict_lookups (content tokens : val) :
  let r : gmap string val :=
    {[ "success" := VBool true; "content" := content;
       "tokens_used" := tokens ]} in
  r !! "success" = Some (VBool true)
  /\ r !! "content" = Some content
  /\ r !! "tokens_used" = Some tokens.
Proof. cbn zeta. repeat split; simplify_map_eq; reflexivity. Qed.

Lemma failure_lookups (msg : string) :
  failure msg !! "success" = Some (VBool false)
  /\ failure msg !! "error" = Some (VStr msg).
Proof. unfold failure. repeat split; simplify_map_eq; reflexivity. Qed.

Lemma present_failure (repr : val -> string) (msg : string) (s : state) :
  present repr (failure msg) s =
    (Ret (VStr EmptyString, "Error: " +:+ msg), s).
Proof.
  destruct (failure_lookups msg) as [Hs He].
  unfold present, item, bind, lift, ret. rewrite Hs. cbn. rewrite He.
  reflexivity.
Qed.

Lemma present_success (repr : val -> string) (content tokens : val)
    (s : state) :
  present repr {[ "success" := VBool true; "content" := content;
                  "tokens_used" := tokens ]} s =
    (Ret (content, "Success! Tokens used: " +:+ str_val repr tokens), s).
Proof.
  destruct (success_dict_lookups content tokens) as (Hs & Hc & Ht).
  unfold present, item, bind, lift, ret. rewrite Hs. cbn. rewrite Hc, Ht.
  reflexivity.
Qed.

(** X24: [process_input] maps the assistant's answer to the pair shown to
    the user: a failure gives the empty output and ["Error: "] followed by
    the message; a success gives the content and the token count, which is
    ["N/A"] for the local server and the decimal count for the cloud API. *)
Theorem process_input_presents (W : world) (repr : val -> string)
    input_type query provider model s r s' :
  is_blank query = false ->
  assistant_call W input_type query s = (Ret r, s') ->
  (forall msg, r = failure msg ->
     process_input W repr input_type query provider model s =
       (Ret (VStr EmptyString, "Error: " +:+ msg), s'))
  /\ (forall content, r = ollama_success content ->
        process_input W repr input_type query provider model s =
          (Ret (content, "Success! Tokens used: N/A"), s'))
  /\ (forall content n, r = openai_success content n ->
        process_input W repr input_type query provider model s =
          (Ret (from_option VStr VNone content,
                "Success! Tokens used: " +:+ pretty n), s')).
Proof.
  intros Hb Hcall. rewrite (process_input_call _ _ _ _ _ _ _ Hb).
  unfold bind. rewrite Hcall. repeat split.
  - intros msg ->. apply present_failure.
  - intros content ->. apply present_success.
  - intros content n ->. apply present_success.
Qed.

Lemma process_input_presents_witness :
  fst (process_input Sample.both quote "code" "robots" "ollama" "llama3.2"
                     (new Sample.both))
  = Ret (VStr "an idea", "Success! Tokens used: 42").
Proof.
  destruct (process_input_presents Sample.both quote "code" "robots"
              "ollama" "llama3.2" (new Sample.both)
              (openai_success (Some "an idea") 42)
              (snd (assistant_call Sample.both "code" "robots"
                      (new Sample.both)))
              eq_refl eq_refl) as (_ & _ & Hopenai).
  rewrite (Hopenai (Some "an idea") 42 eq_refl). reflexivity.
Defined.

Lemma present_keeps_state (repr : val -> string) (r : gmap string val)
    (s : state) :
  snd (present repr r s) = s.
Proof.
  unfold present, item, bind, lift, ret.
  destruct (r !! "success") as [v|]; cbn; [|reflexivity].
  destruct (truthy v); cbn; [|reflexivity].
  destruct (r !! "content"); reflexivity.
Qed.

Lemma bind_present_state (repr : val -> string) (m : M (gmap string val))
    (s : state) :
  snd (bind m (present repr) s) = snd (m s).
Proof.
  unfold bind. destruct (m s) as [[r|e] s']; [|reflexivity].
  apply present_keeps_state.
Qed.

(** X25: the provider and the model selected in the form are not used: for
    a query that is not blank, after an initialisation that detected the
    cloud provider, [process_input] issues one chat completion with model
    ["gpt-4"] and temperature 0.7, whatever provider and model it is
    given. *)
Theorem process_input_ignores_selection (W : world) (repr : val -> string)
    input_type query provider model :
  is_blank query = false ->
  cloud_detected W = true ->
  exists prompt,
    trace (snd (process_input W repr input_type query provider model (new W)))
    = [Get version_url; ChatCreate "gpt-4" [("user", prompt)] float_0_7].
Proof.
  intros Hb Hc. rewrite (process_input_call _ _ _ _ _ _ _ Hb).
  rewrite bind_present_state.
  destruct (assistant_call_send_prompt W input_type query) as [prompt ->].
  exists prompt. now apply send_prompt_default_dispatch.
Qed.

Lemma process_input_ignores_selection_witness :
  exists prompt,
    trace (snd (process_input Sample.both quote "brainstorm" "robots"
                              "ollama" "llama3.2" (new Sample.both)))
    = [Get version_url; ChatCreate "gpt-4" [("user", prompt)] float_0_7].
Proof.
  apply (process_input_ignores_selection Sample.both quote "brainstorm"
           "robots" "ollama" "llama3.2"); reflexivity.
Defined.

Lemma present_shape_returns (repr : val -> string) (r : gmap string val)
    (s : state) :
  (exists msg, r = failure msg)
  \/ (exists content tokens,
        r = {[ "success" := VBool true; "content" := content;
               "tokens_used" := tokens ]}
        /\ (tokens = VStr "N/A" \/ exists n, tokens = VInt n)) ->
  exists out, fst (present repr r s) = Ret out.
Proof.
  intros [[msg ->] | (content & tokens & -> & _)].
  - rewrite present_failure. eauto.
  - rewrite present_success. eauto.
Qed.

(** X26: after initialisation and for a query that is not blank,
    [process_input] returns its pair exactly when some provider is
    current; when none was detected the exception of the assistant
    reaches the caller. *)
Theorem process_input_returns_iff (W : world) (repr : val -> string)
    input_type query provider model :
  is_blank query = false ->
  ((exists out,
      fst (process_input W repr input_type query provider model (new W))
      = Ret out)
   <-> current_provider (self (new W)) <> None).
Proof.
  intros Hb. rewrite (process_input_call _ _ _ _ _ _ _ Hb).
  assert ((exists r, fst (assistant_call W input_type query (new W)) = Ret r)
          <-> current_provider (self (new W)) <> None) as Hcall.
  { unfold assistant_call.
    destruct (String.eqb input_type "brainstorm");
      apply (helpers_return_iff W query). }
  rewrite <- Hcall. unfold bind.
  destruct (assistant_call_send_prompt W input_type query) as [prompt Hp].
  pose proof (send_prompt_result_shape W prompt None None None (new W))
    as Hshape.
  rewrite <- Hp in Hshape.
  destruct (assistant_call W input_type query (new W)) as [[r|e] s'];
    cbn [fst] in *.
  - split; [eauto|]. intros _.
    apply present_shape_returns, Hshape. reflexivity.
  - split; intros [x Hx]; discriminate.
Qed.

Lemma process_input_returns_iff_witness :
  (exists out,
     fst (process_input Sample.local_only quote "code" "robots" "openai"
                        "gpt-4" (new Sample.local_only)) = Ret out)
  /\ ~ (exists out,
          fst (process_input Sample.nothing quote "code" "robots" "openai"
                             "gpt-4" (new Sample.nothing)) = Ret out).
Proof.
  split.
  - apply (process_input_returns_iff Sample.local_only quote "code" "robots"
             "openai" "gpt-4" eq_refl). discriminate.
  - intros H.
    apply (process_input_returns_iff Sample.nothing quote "code" "robots"
             "openai" "gpt-4" eq_refl) in H.
    apply H. reflexivity.
Defined.

(** X27: a project name that is no key of [PROJECT_OPTIONS] makes
    [handle_project_click] raise [KeyError] before any request. *)
Theorem handle_project_click_unknown (W : world) (repr : val -> string)
    project_name provider model s :
  lookup_option project_name PROJECT_OPTIONS = None ->
  handle_project_click W repr project_name provider model s =
    (Raise (Exn KeyError (repr (VStr project_name))), s).
Proof.
  intros H. unfold handle_project_click, bind, lift. now rewrite H.
Qed.

Lemma handle_project_click_unknown_witness :
  handle_project_click Sample.both quote "AI Poetry" "openai" "gpt-4"
                       (new Sample.both) =
    (Raise (Exn KeyError "'AI Poetry'"), new Sample.both).
Proof.
  apply (handle_project_click_unknown Sample.both quote "AI Poetry" "openai"
           "gpt-4" (new Sample.both)).
  reflexivity.
Defined.

Lemma handle_project_click_call (W : world) (repr : val -> string)
    project_name provider model s description :
  lookup_option project_name PROJECT_OPTIONS = Some description ->
  handle_project_click W repr project_name provider model s =
    bind (brainstorm_project W description) (present_click repr description) s.
Proof.
  intros Hl. unfold handle_project_click. unfold bind at 1, lift at 1.
  now rewrite Hl.
Qed.

(** X28: for a project name of [PROJECT_OPTIONS] and an object with a
    stored default model, [handle_project_click] returns ["brainstorm"],
    the project's description and a third item, after at most one request
    and without changing the object; the provider and the model it is
    given are not used. *)
Theorem handle_project_click_known (W : world) (repr : val -> string)
    project_name provider model s description d :
  lookup_option project_name PROJECT_OPTIONS = Some description ->
  default_model (self s) = Some d ->
  exists shown,
    fst (handle_project_click W repr project_name provider model s) =
      Ret ("brainstorm", description, shown)
    /\ snd (handle_project_click W repr project_name provider model s) =
         snd (brainstorm_project W description s).
Proof.
  intros Hl Hd. rewrite (handle_project_click_call _ _ _ _ _ _ _ Hl).
  unfold bind.
  assert (exists r,
            fst (brainstorm_project W description s) = Ret r
            /\ ((exists msg, r = failure msg)
                \/ (exists content tokens,
                      r = {[ "success" := VBool true; "content" := content;
                             "tokens_used" := tokens ]}
                      /\ (tokens = VStr "N/A" \/ exists n, tokens = VInt n))))
    as (r & Hr & Hsh).
  { unfold brainstorm_project.
    match goal with
    | |- context [send_prompt W ?p None None None s] =>
        destruct (send_prompt_returns W p None None None s d Hd) as [r Hr];
        exists r; split; [exact Hr|];
        apply (send_prompt_result_shape W p None None None s r Hr)
    end. }
  destruct (brainstorm_project W description s) as [o s'].
  cbn [fst snd] in *. subst o.
  destruct Hsh as [[msg ->] | (content & tokens & -> & _)].
  - destruct (failure_lookups msg) as [Hs He].
    unfold present_click, item, bind, lift, ret. rewrite Hs. cbn. rewrite He.
    eexists. split; reflexivity.
  - destruct (success_dict_lookups content tokens) as (Hs & Hc & _).
    unfold present_click, item, bind, lift, ret. rewrite Hs. cbn. rewrite Hc.
    eexists. split; reflexivity.
Qed.

Lemma handle_project_click_known_witness :
  exists shown,
    fst (handle_project_click Sample.both quote "AI Story Generator" "ollama"
                              "llama3.2" (new Sample.both)) =
      Ret ("brainstorm",
           "Develop a creative writing AI that generates stories based on prompts",
           shown).
Proof.
  destruct (handle_project_click_known Sample.both quote "AI Story Generator"
              "ollama" "llama3.2" (new Sample.both)
              "Develop a creative writing AI that generates stories based on prompts"
              "llama3.2:latest" eq_refl eq_refl) as (shown & Hshown & _).
  exists shown. exact Hshown.
Defined.

(** ** The drop-down built at start-up *)

Lemma model_dropdown_eq (W : world) (s : state) :
  model_dropdown W s =
    bind
      (if decide (current_provider (self s) = Some "ollama") then
         default_model <- get_default_model ;;
         lift (item0 (split ":" default_model))
       else get_default_model)
      (fun value =>
         ret (MkDropdown
                match current_provider (self s) with
                | Some p =>
                    default []
                      (({[ "openai" := openai_entry (self s);
                           "ollama" := ollama_entry W (self s) ]}
                        : gmap string (list string)) !! p)
                | None => []
                end value))
      (State (self s) (trace s ++ [Get (tags_url (self s))])).
Proof.
  unfold model_dropdown, get_model_choices. unfold bind at 1.
  rewrite get_available_models_eq. reflexivity.
Qed.

(** X29: the model drop-down of the main block, built right after
    initialisation: with nothing detected its construction raises
    [AttributeError]; with the local server alone the value is
    ["llama3.2"]; with the cloud provider alone the value ["gpt-4"] is one
    of the three choices; with both detected the choices are the three
    cloud models but the value is ["llama3.2:latest"], which is none of
    them. *)
Theorem model_dropdown_after_init (W : world) :
  let out := fst (model_dropdown W (new W)) in
  (cloud_detected W = false -> local_detected W = false ->
   out = Raise missing_default_model)
  /\ (cloud_detected W = false -> local_detected W = true ->
      exists choices, out = Ret (MkDropdown choices "llama3.2"))
  /\ (cloud_detected W = true -> local_detected W = false ->
      out = Ret (MkDropdown ["gpt-4"; "gpt-3.5-turbo"; "gpt-4-turbo"]
                            "gpt-4"))
  /\ (cloud_detected W = true -> local_detected W = true ->
      out = Ret (MkDropdown ["gpt-4"; "gpt-3.5-turbo"; "gpt-4-turbo"]
                            "llama3.2:latest")).
Proof.
  cbn zeta. rewrite model_dropdown_eq.
  destruct (new_eq W) as [Hself _]. rewrite Hself.
  unfold bind, get_default_model, lift, ret. cbn [self current_provider
    default_model openai_client].
  repeat split; intros Hc Hl; rewrite ?Hc, ?Hl.
  - reflexivity.
  - cbn. eexists. reflexivity.
  - cbn. rewrite models_lookup_openai. unfold openai_entry. cbn.
    unfold cloud_detected in Hc.
    destruct (OpenAI W _); [reflexivity|].
    rewrite andb_false_r in Hc. discriminate.
  - cbn. rewrite models_lookup_openai. unfold openai_entry. cbn.
    unfold cloud_detected in Hc.
    destruct (OpenAI W _); [reflexivity|].
    rewrite andb_false_r in Hc. discriminate.
Qed.

Lemma model_dropdown_after_init_witness :
  fst (model_dropdown Sample.nothing (new Sample.nothing))
    = Raise missing_default_model
  /\ fst (model_dropdown Sample.both (new Sample.both))
     = Ret (MkDropdown ["gpt-4"; "gpt-3.5-turbo"; "gpt-4-turbo"]
                       "llama3.2:latest").
Proof.
  split.
  - apply (model_dropdown_after_init Sample.nothing); reflexivity.
  - apply (model_dropdown_after_init Sample.both); reflexivity.
Defined.
